(** * PDF merger page script (src/script.js): ordered file set and merge

    A shallow embedding of the event handlers of [script.js].  The page keeps
    one mutable array [filesData]; the handlers push to it, filter it,
    splice it and read it to build the merged document.  Each handler is a
    computation over the page state [World] that may throw a JavaScript
    error; alerts, console messages, downloads and calls to the two PDF
    libraries are recorded, in order, in the [log] of the state.

    Each handler is run to completion: no other handler is interleaved at
    its [await] points. *)

From Stdlib Require Import List String Ascii Bool Arith NArith Lia Permutation.
From Stdlib Require Import DecimalString DecimalN FinFun.
Import ListNotations.
Local Open Scope string_scope.
Local Open Scope list_scope.

Set Implicit Arguments.

(** ** JavaScript values used by the script *)

Module Js.

(** The [message] of a thrown [Error]. *)
Definition Error := string.

Definition Bytes := list Byte.byte.

(** Number to string, for a non-negative integer. *)
Definition string_of_N (n : N) : string :=
  NilEmpty.string_of_uint (N.to_uint n).

Definition string_of_nat (n : nat) : string :=
  NilEmpty.string_of_uint (Nat.to_uint n).

(** [s.substr(start, len)]. *)
Definition substr (start len : nat) (s : string) : string :=
  String.substring start len s.

(** [arr[i]] on an array whose holes and out-of-range reads give
    [undefined], written [None]. *)
Definition index {A} (arr : list (option A)) (i : nat) : option A :=
  nth i arr None.

(** [arr.splice(start, deleteCount, ...items)] for non-negative integer
    arguments: [start] is clamped to the length, and so is the end of the
    deleted range.  The value is the array after the call. *)
Definition splice {A} (start deleteCount : nat) (items : list A)
    (arr : list A) : list A :=
  firstn start arr ++ items ++ skipn (start + deleteCount) arr.

End Js.

Import Js.

(** ** Data model *)

(** A browser [File]: its metadata and what [file.arrayBuffer()] settles
    to. *)
Record File := mkFile {
  file_name : string;
  file_type : string;
  file_size : N;
  file_arrayBuffer : Error + Bytes
}.

(** The object pushed by [addFile]. *)
Record FileEntry := mkEntry {
  id : string;
  file : File;
  name : string;
  size : string;
  sizeBytes : N;
  pageCount : N;
  thumbnail : string;
  pdfData : Bytes
}.

(** An element of [filesData]: an entry, or [undefined]. *)
Definition Slot := option FileEntry.

(** A [div.file-item] of the rendered list; [el] is the identity of the DOM
    element, which [!==] compares. *)
Record Item := mkItem {
  el : nat;
  data_id : string;
  data_index : nat
}.

(** What the script does to the outside world. *)
Inductive Effect :=
| Alert (msg : string)
| ConsoleError (msg : string) (err : Error)
| Call_arrayBuffer (f : File)
| Call_getDocument (data : Bytes)
| Call_PDFDocument_create
| Call_PDFDocument_load (buf : Bytes)
| Call_copyPages (indices : list nat)
| Call_save
| Download (bytes : Bytes) (filename : string).

(** The page state: the closure variables of the script and the DOM nodes
    it writes.  Two counters belong to the model alone: [calls], the number
    of calls of [addFile] so far, which says which reading of the clock and
    of the random generator the next call gets, and [nextEl], the identity
    of the next element that [document.createElement] returns. *)
Record World := mkWorld {
  filesData : list Slot;
  dragSrcEl : option Item;
  fileListElement : list Item;
  fileCountSpan : string;
  totalSizeSpan : string;
  mergeBtn_innerText : string;
  mergeBtn_disabled : bool;
  clearBtn_hidden : bool;
  successMessage_hidden : bool;
  fileInput_value : string;
  calls : nat;
  nextEl : nat;
  log : list Effect
}.

Definition set_filesData (v : list Slot) (w : World) : World :=
  mkWorld v (dragSrcEl w) (fileListElement w) (fileCountSpan w)
    (totalSizeSpan w) (mergeBtn_innerText w) (mergeBtn_disabled w)
    (clearBtn_hidden w) (successMessage_hidden w) (fileInput_value w)
    (calls w) (nextEl w) (log w).

Definition set_dragSrcEl (v : option Item) (w : World) : World :=
  mkWorld (filesData w) v (fileListElement w) (fileCountSpan w)
    (totalSizeSpan w) (mergeBtn_innerText w) (mergeBtn_disabled w)
    (clearBtn_hidden w) (successMessage_hidden w) (fileInput_value w)
    (calls w) (nextEl w) (log w).

Definition set_fileListElement (v : list Item) (w : World) : World :=
  mkWorld (filesData w) (dragSrcEl w) v (fileCountSpan w)
    (totalSizeSpan w) (mergeBtn_innerText w) (mergeBtn_disabled w)
    (clearBtn_hidden w) (successMessage_hidden w) (fileInput_value w)
    (calls w) (nextEl w) (log w).

Definition set_fileCountSpan (v : string) (w : World) : World :=
  mkWorld (filesData w) (dragSrcEl w) (fileListElement w) v
    (totalSizeSpan w) (mergeBtn_innerText w) (mergeBtn_disabled w)
    (clearBtn_hidden w) (successMessage_hidden w) (fileInput_value w)
    (calls w) (nextEl w) (log w).

Definition set_totalSizeSpan (v : string) (w : World) : World :=
  mkWorld (filesData w) (dragSrcEl w) (fileListElement w) (fileCountSpan w)
    v (mergeBtn_innerText w) (mergeBtn_disabled w)
    (clearBtn_hidden w) (successMessage_hidden w) (fileInput_value w)
    (calls w) (nextEl w) (log w).

Definition set_mergeBtn_innerText (v : string) (w : World) : World :=
  mkWorld (filesData w) (dragSrcEl w) (fileListElement w) (fileCountSpan w)
    (totalSizeSpan w) v (mergeBtn_disabled w)
    (clearBtn_hidden w) (successMessage_hidden w) (fileInput_value w)
    (calls w) (nextEl w) (log w).

Definition set_mergeBtn_disabled (v : bool) (w : World) : World :=
  mkWorld (filesData w) (dragSrcEl w) (fileListElement w) (fileCountSpan w)
    (totalSizeSpan w) (mergeBtn_innerText w) v
    (clearBtn_hidden w) (successMessage_hidden w) (fileInput_value w)
    (calls w) (nextEl w) (log w).

Definition set_clearBtn_hidden (v : bool) (w : World) : World :=
  mkWorld (filesData w) (dragSrcEl w) (fileListElement w) (fileCountSpan w)
    (totalSizeSpan w) (mergeBtn_innerText w) (mergeBtn_disabled w)
    v (successMessage_hidden w) (fileInput_value w)
    (calls w) (nextEl w) (log w).

Definition set_successMessage_hidden (v : bool) (w : World) : World :=
  mkWorld (filesData w) (dragSrcEl w) (fileListElement w) (fileCountSpan w)
    (totalSizeSpan w) (mergeBtn_innerText w) (mergeBtn_disabled w)
    (clearBtn_hidden w) v (fileInput_value w)
    (calls w) (nextEl w) (log w).

Definition set_fileInput_value (v : string) (w : World) : World :=
  mkWorld (filesData w) (dragSrcEl w) (fileListElement w) (fileCountSpan w)
    (totalSizeSpan w) (mergeBtn_innerText w) (mergeBtn_disabled w)
    (clearBtn_hidden w) (successMessage_hidden w) v
    (calls w) (nextEl w) (log w).

Definition set_calls (v : nat) (w : World) : World :=
  mkWorld (filesData w) (dragSrcEl w) (fileListElement w) (fileCountSpan w)
    (totalSizeSpan w) (mergeBtn_innerText w) (mergeBtn_disabled w)
    (clearBtn_hidden w) (successMessage_hidden w) (fileInput_value w)
    v (nextEl w) (log w).

Definition set_nextEl (v : nat) (w : World) : World :=
  mkWorld (filesData w) (dragSrcEl w) (fileListElement w) (fileCountSpan w)
    (totalSizeSpan w) (mergeBtn_innerText w) (mergeBtn_disabled w)
    (clearBtn_hidden w) (successMessage_hidden w) (fileInput_value w)
    (calls w) v (log w).

Definition set_log (v : list Effect) (w : World) : World :=
  mkWorld (filesData w) (dragSrcEl w) (fileListElement w) (fileCountSpan w)
    (totalSizeSpan w) (mergeBtn_innerText w) (mergeBtn_disabled w)
    (clearBtn_hidden w) (successMessage_hidden w) (fileInput_value w)
    (calls w) (nextEl w) v.

(** ** Computations that may throw *)

Inductive Res (A : Type) :=
| Ok (a : A)
| Throw (e : Error).
Arguments Ok {A} a.
Arguments Throw {A} e.

Definition M (A : Type) := World -> Res A * World.

Definition ret {A} (a : A) : M A := fun w => (Ok a, w).

Definition bind {A B} (m : M A) (k : A -> M B) : M B :=
  fun w => match m w with
           | (Ok a, w') => k a w'
           | (Throw e, w') => (Throw e, w')
           end.

Definition throw {A} (e : Error) : M A := fun w => (Throw e, w).

(** [try { body } catch (error) { handler }]. *)
Definition try_catch {A} (body : M A) (handler : Error -> M A) : M A :=
  fun w => match body w with
           | (Ok a, w') => (Ok a, w')
           | (Throw e, w') => handler e w'
           end.

(** [try { body } finally { final }]; [final] never throws here. *)
Definition try_finally {A} (body : M A) (final : M unit) : M A :=
  fun w => match body w with
           | (r, w') => match final w' with
                        | (Ok _, w'') => (r, w'')
                        | (Throw e, w'') => (Throw e, w'')
                        end
           end.

Definition get {A} (f : World -> A) : M A := fun w => (Ok (f w), w).

Definition modify (f : World -> World) : M unit := fun w => (Ok tt, f w).

Definition emit (e : Effect) : M unit :=
  modify (fun w => set_log (log w ++ [e]) w).

(** Awaiting a promise, or calling a function, that settles to [r]. *)
Definition settle {A} (r : Error + A) : M A :=
  match r with
  | inr a => ret a
  | inl e => throw e
  end.

Declare Scope js_scope.
Delimit Scope js_scope with js.
Notation "x <- m ;; k" := (bind m (fun x => k))
  (at level 61, m at next level, right associativity) : js_scope.
Notation "m ;; k" := (bind m (fun _ => k))
  (at level 61, right associativity) : js_scope.
Local Open Scope js_scope.

(** [for (const x of l) { body x }]. *)
Fixpoint for_of {A} (l : list A) (body : A -> M unit) : M unit :=
  match l with
  | [] => ret tt
  | x :: l' => body x ;; for_of l' body
  end.

(** A loop that updates a local variable of type [S]. *)
Fixpoint for_of_acc {A S} (l : list A) (body : S -> A -> M S) (s : S) : M S :=
  match l with
  | [] => ret s
  | x :: l' => s' <- body s x ;; for_of_acc l' body s'
  end.

(** [arr.filter(x => p x)] with a callback that may throw. *)
Fixpoint filterM {A} (p : A -> M bool) (l : list A) : M (list A) :=
  match l with
  | [] => ret []
  | x :: l' =>
      keep <- p x ;;
      rest <- filterM p l' ;;
      ret (if keep then x :: rest else rest)
  end.

Definition exec {A} (m : M A) (w : World) : World := snd (m w).
Definition result {A} (m : M A) (w : World) : Res A := fst (m w).

(** Reading a property of an array element: a [TypeError] on
    [undefined]. *)
Definition TypeError_undefined (prop : string) : Error :=
  ("Cannot read properties of undefined (reading '" ++ prop ++ "')")%string.

Definition TypeError_null (prop : string) : Error :=
  ("Cannot read properties of null (reading '" ++ prop ++ "')")%string.

Definition prop_of {A} (prop : string) (s : Slot) (f : FileEntry -> A) : M A :=
  match s with
  | Some e => ret (f e)
  | None => throw (TypeError_undefined prop)
  end.

(** ** The two PDF libraries

    Both are external to the script.  A pdf.js document is what the script
    reads from it: [numPages], and what rendering page 1 to a data URL
    settles to.  A pdf-lib document is its sequence of pages. *)

Record PdfJsDoc := mkPdfJsDoc {
  numPages : N;
  renderFirstPage : Error + string
}.

Record PdfLibApi (Page : Type) := mkPdfLib {
  PDFDocument_load : Bytes -> Error + list Page;
  PDFDocument_save : list Page -> Error + Bytes
}.

Module PdfLib.
Section Pages.
Variable Page : Type.

(** [pdf.getPageIndices()]. *)
Definition getPageIndices (pdf : list Page) : list nat :=
  seq 0 (List.length pdf).

(** [mergedPdf.copyPages(pdf, indices)]: copies of the pages of [pdf] at
    [indices], in the order of [indices]; an index outside the document
    is an error. *)
Fixpoint copyPages (pdf : list Page) (indices : list nat)
    : Error + list Page :=
  match indices with
  | [] => inr []
  | i :: rest =>
      match nth_error pdf i with
      | None => inl "Index out of bounds"
      | Some page =>
          match copyPages pdf rest with
          | inl e => inl e
          | inr pages => inr (page :: pages)
          end
      end
  end.

(** [pages.forEach((page) => doc.addPage(page))]. *)
Definition addPages (doc pages : list Page) : list Page :=
  fold_left (fun d page => d ++ [page]) pages doc.
End Pages.
End PdfLib.

(** ** The script *)

Module Script.
Section WithEnvironment.

(** The environment of the page: the clock and the random generator, read
    once per [addFile]; pdf.js; [formatSize], whose floating-point
    arithmetic is left out; and [window.PDFLib], absent when the library
    failed to load. *)
Variable Page : Type.
Variable Date_now : nat -> N.
Variable Math_random_toString36 : nat -> string.
Variable pdfjsLib_getDocument : Bytes -> Error + PdfJsDoc.
Variable formatSize : N -> string.
Variable window_PDFLib : option (PdfLibApi Page).

Definition MAX_FILES_MSG : string := "Only PDF files are accepted.".

(** [Date.now() + Math.random().toString(36).substr(2, 9)] at the [n]-th
    call of [addFile]. *)
Definition newId (n : nat) : string :=
  (string_of_N (Date_now n) ++ substr 2 9 (Math_random_toString36 n))%string.

Definition renderFileList : M unit :=
  modify (set_fileListElement []) ;;
  fd <- get filesData ;;
  for_of (combine fd (seq 0 (List.length fd)))
    (fun '(data, index) =>
       item <- get nextEl ;;
       modify (set_nextEl (S item)) ;;
       data_id <- prop_of "id" data id ;;
       modify (fun w =>
         set_fileListElement
           (fileListElement w ++ [mkItem item data_id index]) w)).

Definition updateStats : M unit :=
  fd <- get filesData ;;
  modify (set_fileCountSpan
            (string_of_nat (List.length fd) ++ " PDFs selected")%string) ;;
  totalBytes <- for_of_acc fd
    (fun acc curr => b <- prop_of "sizeBytes" curr sizeBytes ;;
                     ret (acc + b)%N) 0%N ;;
  modify (set_totalSizeSpan ("Total size: " ++ formatSize totalBytes)%string).

Definition updateButtons : M unit :=
  fd <- get filesData ;;
  modify (set_mergeBtn_disabled (List.length fd <? 2)%nat) ;;
  if (0 <? List.length fd)%nat
  then modify (set_clearBtn_hidden false)
  else modify (set_clearBtn_hidden true).

Definition updateUI : M unit :=
  renderFileList ;; updateStats ;; updateButtons.

Definition generateThumbnail (pdfDoc : PdfJsDoc) : M string :=
  try_catch (settle (renderFirstPage pdfDoc))
    (fun e => emit (ConsoleError "Error generating thumbnail" e) ;; ret "").

Definition addFile (file : File) : M unit :=
  n <- get calls ;;
  modify (set_calls (S n)) ;;
  let id := newId n in
  try_catch
    (emit (Call_arrayBuffer file) ;;
     arrayBuffer <- settle (file_arrayBuffer file) ;;
     let pdfData := arrayBuffer in
     emit (Call_getDocument pdfData) ;;
     pdfDoc <- settle (pdfjsLib_getDocument pdfData) ;;
     let pageCount := numPages pdfDoc in
     thumbnail <- generateThumbnail pdfDoc ;;
     modify (fun w =>
       set_filesData
         (filesData w ++
            [Some (mkEntry id file (file_name file)
                     (formatSize (file_size file)) (file_size file)
                     pageCount thumbnail pdfData)]) w))
    (fun error =>
       emit (ConsoleError "Error loading PDF:" error) ;;
       emit (Alert ("Failed to load " ++ file_name file ++
                    ". It might be corrupted.")%string)).

Definition isPdf (file : File) : bool :=
  String.eqb (file_type file) "application/pdf".

Definition handleFiles (fileList : list File) : M unit :=
  modify (set_successMessage_hidden true) ;;
  let newFiles := filter isPdf fileList in
  if (List.length newFiles =? 0)%nat && (0 <? List.length fileList)%nat
  then emit (Alert MAX_FILES_MSG)
  else for_of newFiles addFile ;; updateUI.

Definition removeFile (id0 : string) : M unit :=
  fd <- get filesData ;;
  fd' <- filterM (fun f => i <- prop_of "id" f id ;;
                           ret (negb (String.eqb i id0))) fd ;;
  modify (set_filesData fd') ;;
  updateUI.

Definition clearAllFiles : M unit :=
  modify (set_filesData []) ;;
  updateUI ;;
  modify (set_fileInput_value "") ;;
  modify (set_successMessage_hidden true).

(** The three statements under the comment "Swap in array" of the [drop]
    listener. *)
Definition moveEntry (srcIndex targetIndex : nat) (fd : list Slot)
    : list Slot :=
  let header := index fd srcIndex in
  splice targetIndex 0 [header] (splice srcIndex 1 [] fd).

Definition onDragStart (item : Item) : M unit :=
  modify (set_dragSrcEl (Some item)).

(** [dragSrcEl !== this]. *)
Definition differs (src : option Item) (this : Item) : bool :=
  match src with
  | None => true
  | Some s => negb (el s =? el this)%nat
  end.

Definition onDrop (this : Item) : M unit :=
  src <- get dragSrcEl ;;
  if differs src this then
    match src with
    | None => throw (TypeError_null "getAttribute")
    | Some s =>
        let srcIndex := data_index s in
        let targetIndex := data_index this in
        modify (fun w =>
          set_filesData (moveEntry srcIndex targetIndex (filesData w)) w) ;;
        updateUI
    end
  else ret tt.

Definition downloadPDF (bytes : Bytes) (filename : string) : M unit :=
  emit (Download bytes filename).

(** One turn of the loop of [mergePDFs] on the growing [mergedPdf]. *)
Definition mergeOne (PDFLib : PdfLibApi Page) (mergedPdf : list Page)
    (data : Slot) : M (list Page) :=
  f <- prop_of "file" data file ;;
  emit (Call_arrayBuffer f) ;;
  arrayBuffer <- settle (file_arrayBuffer f) ;;
  emit (Call_PDFDocument_load arrayBuffer) ;;
  pdf <- settle (PDFDocument_load PDFLib arrayBuffer) ;;
  emit (Call_copyPages (PdfLib.getPageIndices pdf)) ;;
  copiedPages <- settle (PdfLib.copyPages pdf (PdfLib.getPageIndices pdf)) ;;
  ret (PdfLib.addPages mergedPdf copiedPages).

Definition mergePDFs : M unit :=
  fd <- get filesData ;;
  if (List.length fd <? 2)%nat then ret tt else
  originalBtnText <- get mergeBtn_innerText ;;
  modify (set_mergeBtn_innerText "Merging...") ;;
  modify (set_mergeBtn_disabled true) ;;
  try_finally
    (try_catch
       (match window_PDFLib with
        | None =>
            throw "PDF-LIB library not loaded. Please check your internet connection."
        | Some PDFLib =>
            emit Call_PDFDocument_create ;;
            fd <- get filesData ;;
            mergedPdf <- for_of_acc fd (mergeOne PDFLib) [] ;;
            emit Call_save ;;
            pdfBytes <- settle (PDFDocument_save PDFLib mergedPdf) ;;
            downloadPDF pdfBytes "merged-document.pdf" ;;
            modify (set_successMessage_hidden false)
        end)
       (fun error =>
          emit (ConsoleError "Merge failed:" error) ;;
          emit (Alert ("An error occurred while merging PDFs: " ++ error)%string)))
    (modify (set_mergeBtn_innerText originalBtnText) ;;
     modify (set_mergeBtn_disabled false)).

(** ** Events of the page *)

Inductive Event :=
| Files (fileList : list File)
| RemoveFile (id0 : string)
| DragStart (item : Item)
| Drop (this : Item)
| ClearClick
| MergeClick.

Definition handler (ev : Event) : M unit :=
  match ev with
  | Files fileList => handleFiles fileList
  | RemoveFile id0 => removeFile id0
  | DragStart item => onDragStart item
  | Drop this => onDrop this
  | ClearClick => clearAllFiles
  | MergeClick => mergePDFs
  end.

Definition run (evs : list Event) (w : World) : World :=
  fold_left (fun w ev => exec (handler ev) w) evs w.

End WithEnvironment.
End Script.

(** What a computation adds to the log. *)
Definition effects {A} (m : M A) (w : World) : list Effect :=
  skipn (List.length (log w)) (log (exec m w)).

(** An error surfaced to the user or the caller: an [alert], a
    [console.error], or a thrown error (a rejected promise for the [async]
    handlers). *)
Definition is_signal (e : Effect) : bool :=
  match e with
  | Alert _ | ConsoleError _ _ => true
  | _ => false
  end.

Definition signals {A} (m : M A) (w : World) : Prop :=
  (exists e, result m w = Throw e) \/ existsb is_signal (effects m w) = true.

(** A download of the merged document. *)
Definition is_download (e : Effect) : bool :=
  match e with
  | Download _ _ => true
  | _ => false
  end.

(** The entries of an array, holes left out, and their ids. *)
Definition entries (fd : list Slot) : list FileEntry :=
  flat_map (fun s => match s with Some e => [e] | None => [] end) fd.

Definition ids (fd : list Slot) : list string := map id (entries fd).

(** [l1] is [l2] with some elements left out: the elements of [l1] keep
    the relative order they have in [l2]. *)
Inductive Subseq {A} : list A -> list A -> Prop :=
| Subseq_nil : Subseq [] []
| Subseq_keep x l1 l2 : Subseq l1 l2 -> Subseq (x :: l1) (x :: l2)
| Subseq_drop x l1 l2 : Subseq l1 l2 -> Subseq l1 (x :: l2).

(** [m] never changes the part [f] of the state, whether it returns or
    throws. *)
Definition frames {X A} (f : World -> X) (m : M A) : Prop :=
  forall w, f (snd (m w)) = f w.

(** Appending to the log. *)
Definition say (es : list Effect) (w : World) : World :=
  set_log (log w ++ es) w.

(** ** The handlers read as functions

    What each loop body of the script computes, and which calls it makes,
    as functions of its input alone. *)

Module Reading.
Section Readings.

Variable Page : Type.
Variable Date_now : nat -> N.
Variable Math_random_toString36 : nat -> string.
Variable pdfjsLib_getDocument : Bytes -> Error + PdfJsDoc.
Variable formatSize : N -> string.
Variable PDFLib : PdfLibApi Page.

(** The document that one turn of the merge loop loads for an array
    element: the pages of the entry's file as pdf-lib reads them now. *)
Definition pagesOf (data : Slot) : Error + list Page :=
  match data with
  | None => inl (TypeError_undefined "file")
  | Some e =>
      match file_arrayBuffer (file e) with
      | inl err => inl err
      | inr buf => PDFDocument_load PDFLib buf
      end
  end.

(** The calls that turn makes, up to the one that fails. *)
Definition mergeCalls (data : Slot) : list Effect :=
  match data with
  | None => []
  | Some e =>
      Call_arrayBuffer (file e) ::
      match file_arrayBuffer (file e) with
      | inl _ => []
      | inr buf =>
          Call_PDFDocument_load buf ::
          match PDFDocument_load PDFLib buf with
          | inl _ => []
          | inr pdf => [Call_copyPages (PdfLib.getPageIndices pdf)]
          end
      end
  end.

(** What [addFile] awaits inside its [try]: the bytes and the pdf.js
    document, or the error that sends it to the [catch]. *)
Definition decode (f : File) : Error + Bytes * PdfJsDoc :=
  match file_arrayBuffer f with
  | inl err => inl err
  | inr buf =>
      match pdfjsLib_getDocument buf with
      | inl err => inl err
      | inr pdfDoc => inr (buf, pdfDoc)
      end
  end.

Definition decodes (f : File) : bool :=
  match decode f with
  | inr _ => true
  | inl _ => false
  end.

(** A file that ends up in [filesData]. *)
Definition accepted (f : File) : bool := Script.isPdf f && decodes f.

(** The entry that the [n]-th call of [addFile] pushes for [f], if any. *)
Definition entryFor (n : nat) (f : File) : list FileEntry :=
  match decode f with
  | inl _ => []
  | inr (buf, pdfDoc) =>
      [mkEntry (Script.newId Date_now Math_random_toString36 n) f
         (file_name f) (formatSize (file_size f)) (file_size f)
         (numPages pdfDoc)
         match renderFirstPage pdfDoc with
         | inr url => url
         | inl _ => ""
         end
         buf]
  end.

(** The log of one call of [addFile]. *)
Definition addCalls (f : File) : list Effect :=
  Call_arrayBuffer f ::
  match file_arrayBuffer f with
  | inl err =>
      [ConsoleError "Error loading PDF:" err;
       Alert ("Failed to load " ++ file_name f ++ ". It might be corrupted.")%string]
  | inr buf =>
      Call_getDocument buf ::
      match pdfjsLib_getDocument buf with
      | inl err =>
          [ConsoleError "Error loading PDF:" err;
           Alert ("Failed to load " ++ file_name f ++ ". It might be corrupted.")%string]
      | inr pdfDoc =>
          match renderFirstPage pdfDoc with
          | inr _ => []
          | inl err => [ConsoleError "Error generating thumbnail" err]
          end
      end
  end.

(** The entries pushed by successive calls of [addFile], the first of
    them being the [n]-th call. *)
Fixpoint added (n : nat) (files : list File) : list FileEntry :=
  match files with
  | [] => []
  | f :: rest => entryFor n f ++ added (S n) rest
  end.

End Readings.
End Reading.

Import Reading.

(** The test of [removeFile] on an element that has an [id]. *)
Definition keeps (id0 : string) (s : Slot) : bool :=
  match s with
  | Some e => negb (String.eqb (id e) id0)
  | None => true
  end.

Definition defined (s : Slot) : bool :=
  match s with
  | Some _ => true
  | None => false
  end.

(** The items that [renderFileList] appends for an array, the first of
    them with element identity [el0] and index [index0]: one per element,
    up to the first [undefined]. *)
Fixpoint rendered (el0 index0 : nat) (fd : list Slot) : list Item :=
  match fd with
  | Some e :: rest => mkItem el0 (id e) index0 :: rendered (S el0) (S index0) rest
  | _ => []
  end.

(** The elements it creates on the way: the one for an [undefined]
    element is created before its [id] is read. *)
Fixpoint created (fd : list Slot) : nat :=
  match fd with
  | [] => 0
  | Some _ :: rest => S (created rest)
  | None :: _ => 1
  end.

(** [filesData.reduce((acc, curr) => acc + curr.sizeBytes, 0)] on an array
    of entries. *)
Definition totalBytes (fd : list Slot) : N :=
  fold_left (fun acc e => (acc + sizeBytes e)%N) (entries fd) 0%N.

(** The page shows the array: one item per element, carrying its index
    and the id of its entry, the merge button disabled exactly below two
    elements and the clear button hidden exactly when there is none. *)
Definition page_shows_array (w : World) : Prop :=
  mergeBtn_disabled w = (List.length (filesData w) <? 2)%nat /\
  clearBtn_hidden w = negb (0 <? List.length (filesData w))%nat /\
  map data_index (fileListElement w) = seq 0 (List.length (filesData w)) /\
  map data_id (fileListElement w) = ids (filesData w).

Definition is_alert (e : Effect) : bool :=
  match e with
  | Alert _ => true
  | _ => false
  end.

Definition is_mergeClick (ev : Script.Event) : bool :=
  match ev with
  | Script.MergeClick => true
  | _ => false
  end.

(** ** A concrete page, used to run the script on examples *)

Module Demo.

(** Every byte of a file stands for one page. *)
Definition Page := Byte.byte.

Definition Date_now (n : nat) : N := 1700000000000 + N.of_nat n.
Definition Math_random_toString36 (n : nat) : string := "0.4fzyo82mvyr".

(** A clock that stands still: [Date.now()] has a resolution of a
    millisecond at best. *)
Definition stopped_clock (n : nat) : N := 1700000000000.

Definition getDocument (data : Bytes) : Error + PdfJsDoc :=
  match data with
  | [] => inl "Invalid PDF structure."
  | _ => inr (mkPdfJsDoc (N.of_nat (List.length data)) (inr "data:image/png;base64,AAAA"))
  end.

Definition formatSize (bytes : N) : string :=
  (string_of_N bytes ++ " B")%string.

Definition PDFLib : PdfLibApi Page :=
  mkPdfLib
    (fun buf => match buf with
                | [] => inl "Failed to parse PDF document"
                | _ => inr buf
                end)
    (fun doc => inr doc).

Definition pdf (name : string) (content : Bytes) : File :=
  mkFile name "application/pdf" (N.of_nat (List.length content)) (inr content).

Definition a_pdf : File := pdf "a.pdf" [Byte.x01; Byte.x02].
Definition b_pdf : File := pdf "b.pdf" [Byte.x03; Byte.x04; Byte.x05].
Definition c_pdf : File := pdf "c.pdf" [Byte.x06].
Definition broken_pdf : File := pdf "broken.pdf" [].
Definition notes_txt : File :=
  mkFile "notes.txt" "text/plain" 5 (inr [Byte.x68; Byte.x65; Byte.x6c; Byte.x6c; Byte.x6f]).

Definition entry (i : string) (f : File) : FileEntry :=
  mkEntry i f (file_name f) (formatSize (file_size f)) (file_size f)
    (file_size f) "" match file_arrayBuffer f with inr b => b | inl _ => [] end.

(** A freshly loaded page. *)
Definition page0 : World :=
  mkWorld [] None [] "" "" "Merge PDFs" true true true "" 0 0 [].

Definition with_files (fd : list Slot) : World := set_filesData fd page0.

Definition on (ev : Script.Event) : M unit :=
  Script.handler Date_now Math_random_toString36 getDocument formatSize
    (Some PDFLib) ev.

Definition play (evs : list Script.Event) (w : World) : World :=
  Script.run Date_now Math_random_toString36 getDocument formatSize
    (Some PDFLib) evs w.

End Demo.

(** Libraries that fail where the ones of [Demo] succeed. *)
Module Faulty.

(** pdf.js documents whose first page cannot be rendered. *)
Definition getDocument (data : Bytes) : Error + PdfJsDoc :=
  match data with
  | [] => inl "Invalid PDF structure."
  | _ => inr (mkPdfJsDoc (N.of_nat (List.length data))
                (inl "Canvas is not available"))
  end.

(** A pdf-lib that loads documents and cannot save. *)
Definition PDFLib : PdfLibApi Demo.Page :=
  mkPdfLib (PDFDocument_load Demo.PDFLib) (fun doc => inl "Out of memory").

End Faulty.

(** * Properties *)

(** ** Parts of the state a computation leaves alone *)

Section Frames.

Context {X : Type} (f : World -> X).

Local Abbreviation frames := (frames f).

Lemma frames_ret {A} (a : A) : frames (ret a).
Proof. intro w. reflexivity. Qed.

Lemma frames_throw {A} (e : Error) : frames (@throw A e).
Proof. intro w. reflexivity. Qed.

Lemma frames_get {A} (g : World -> A) : frames (get g).
Proof. intro w. reflexivity. Qed.

Lemma frames_settle {A} (r : Error + A) : frames (settle r).
Proof. destruct r; intro w; reflexivity. Qed.

Lemma frames_prop_of {A} prop s (g : FileEntry -> A) :
  frames (prop_of prop s g).
Proof. destruct s; intro w; reflexivity. Qed.

Lemma frames_modify (g : World -> World) :
  (forall w, f (g w) = f w) -> frames (modify g).
Proof. intros H w. apply H. Qed.

Lemma frames_bind {A B} (m : M A) (k : A -> M B) :
  frames m -> (forall a, frames (k a)) -> frames (bind m k).
Proof.
  intros Hm Hk w. unfold bind.
  specialize (Hm w). destruct (m w) as [[a | e] w']; simpl in *.
  - rewrite Hk. exact Hm.
  - exact Hm.
Qed.

Lemma frames_try_catch {A} (body : M A) (h : Error -> M A) :
  frames body -> (forall e, frames (h e)) -> frames (try_catch body h).
Proof.
  intros Hb Hh w. unfold try_catch.
  specialize (Hb w). destruct (body w) as [[a | e] w']; simpl in *.
  - exact Hb.
  - rewrite Hh. exact Hb.
Qed.

Lemma frames_try_finally {A} (body : M A) (final : M unit) :
  frames body -> frames final -> frames (try_finally body final).
Proof.
  intros Hb Hf w. unfold try_finally.
  specialize (Hb w). destruct (body w) as [r w']; simpl in *.
  specialize (Hf w'). destruct (final w') as [[u | e] w'']; simpl in *;
    congruence.
Qed.

Lemma frames_for_of {A} (l : list A) (body : A -> M unit) :
  (forall x, frames (body x)) -> frames (for_of l body).
Proof.
  intro Hb. induction l as [| x l IH]; simpl.
  - apply frames_ret.
  - apply frames_bind; auto.
Qed.

Lemma frames_for_of_acc {A S} (l : list A) (body : S -> A -> M S) s :
  (forall s x, frames (body s x)) -> frames (for_of_acc l body s).
Proof.
  intro Hb. revert s. induction l as [| x l IH]; intro s; simpl.
  - apply frames_ret.
  - apply frames_bind; auto.
Qed.

Lemma frames_filterM {A} (p : A -> M bool) (l : list A) :
  (forall x, frames (p x)) -> frames (filterM p l).
Proof.
  intro Hp. induction l as [| x l IH]; simpl.
  - apply frames_ret.
  - apply frames_bind; [apply Hp |].
    intro keep. apply frames_bind; [apply IH |].
    intro rest. apply frames_ret.
Qed.

End Frames.

(** Splits a computation of the script along its control structure; what
    is left are the assignments that touch the framed part. *)
Ltac frame :=
  repeat first
    [ apply frames_ret | apply frames_throw | apply frames_get
    | apply frames_settle | apply frames_prop_of
    | apply frames_modify; intro; reflexivity
    | apply frames_bind; [| intro]
    | apply frames_try_catch; [| intro]
    | apply frames_try_finally
    | apply frames_for_of; intro
    | apply frames_for_of_acc; intros
    | apply frames_filterM; intro
    | match goal with
      | |- frames _ (if ?b then _ else _) => destruct b
      | |- frames _ (match ?x with _ => _ end) => destruct x
      end ].

(** ** The log and the state *)

Lemma say_nil (w : World) : say [] w = w.
Proof. destruct w. unfold say, set_log. simpl. rewrite app_nil_r. reflexivity. Qed.

Lemma say_say (a b : list Effect) (w : World) : say b (say a w) = say (a ++ b) w.
Proof. destruct w. unfold say, set_log. simpl. rewrite app_assoc. reflexivity. Qed.

Lemma emit_say (e : Effect) (w : World) : emit e w = (Ok tt, say [e] w).
Proof. reflexivity. Qed.

Lemma skipn_length_app {A} (l r : list A) : skipn (List.length l) (l ++ r) = r.
Proof. induction l as [| x l IH]; simpl; auto. Qed.

(** What a computation logs, read off the state it ends in. *)
Lemma effects_of_log {A} (m : M A) (w : World) (es : list Effect) :
  log (exec m w) = log w ++ es -> effects m w = es.
Proof. intro H. unfold effects. rewrite H. apply skipn_length_app. Qed.

(** Runs the straight-line part of a computation. *)
Ltac run_script :=
  unfold bind, emit, modify, get, settle, ret, throw, prop_of, try_catch,
    try_finally, exec, result; simpl.

(** Two states that differ in how their logs are bracketed. *)
(** Computes the assignments to the fields of a state, innermost first. *)
Ltac assign_fields :=
  cbv beta iota delta
    [say set_filesData set_dragSrcEl set_fileListElement set_fileCountSpan
     set_totalSizeSpan set_mergeBtn_innerText set_mergeBtn_disabled
     set_clearBtn_hidden set_successMessage_hidden set_fileInput_value
     set_calls set_nextEl set_log
     filesData dragSrcEl fileListElement fileCountSpan totalSizeSpan
     mergeBtn_innerText mergeBtn_disabled clearBtn_hidden
     successMessage_hidden fileInput_value calls nextEl log].

(** Two states that differ in how their logs are bracketed. *)
Ltac same_world :=
  match goal with
  | w : World |- (_, _) = (_, _) =>
      apply f_equal2; [reflexivity |];
      destruct w; assign_fields; rewrite <- ?app_assoc; simpl;
      rewrite ?app_nil_r; reflexivity
  end.

(** ** pdf-lib documents *)

Section PdfLibFacts.

Variable Page : Type.

Lemma copyPages_from (skipped pdf : list Page) :
  PdfLib.copyPages (skipped ++ pdf) (seq (List.length skipped) (List.length pdf))
  = inr pdf.
Proof.
  revert skipped. induction pdf as [| page pdf IH]; intro skipped; simpl.
  - reflexivity.
  - rewrite nth_error_app2 by lia. rewrite Nat.sub_diag. simpl.
    specialize (IH (skipped ++ [page])).
    rewrite <- app_assoc, length_app, Nat.add_1_r in IH. simpl in IH.
    rewrite IH. reflexivity.
Qed.

(** Copying all the pages of a document gives its pages, in order. *)
Lemma copyPages_all (pdf : list Page) :
  PdfLib.copyPages pdf (PdfLib.getPageIndices pdf) = inr pdf.
Proof. exact (copyPages_from [] pdf). Qed.

Lemma addPages_app (doc pages : list Page) :
  PdfLib.addPages doc pages = doc ++ pages.
Proof.
  unfold PdfLib.addPages. revert doc.
  induction pages as [| page pages IH]; intro doc; simpl.
  - symmetry. apply app_nil_r.
  - rewrite IH, <- app_assoc. reflexivity.
Qed.

End PdfLibFacts.

(** ** The merge loop *)

Section MergeLoop.

Variable Page : Type.
Variable PDFLib : PdfLibApi Page.

(** One turn: the pages of the entry are appended to the growing
    document, or the turn throws what reading or loading threw. *)
Lemma mergeOne_run (mergedPdf : list Page) (data : Slot) (w : World) :
  Script.mergeOne PDFLib mergedPdf data w =
  (match pagesOf PDFLib data with
   | inr pdf => Ok (mergedPdf ++ pdf)
   | inl err => Throw err
   end, say (mergeCalls PDFLib data) w).
Proof.
  unfold Script.mergeOne, pagesOf, mergeCalls.
  destruct data as [e |]; simpl.
  - destruct (file_arrayBuffer (file e)) as [err | buf] eqn:Hbuf;
      [| destruct (PDFDocument_load PDFLib buf) as [err | pdf] eqn:Hpdf];
      run_script; rewrite ?Hbuf; run_script; rewrite ?Hpdf; run_script;
      rewrite ?copyPages_all, ?addPages_app; run_script; same_world.
  - run_script. same_world.
Qed.

(** The loop over entries that all load. *)
Lemma merge_loop_ok (fd : list Slot) (docs : list (list Page)) :
  Forall2 (fun data pdf => pagesOf PDFLib data = inr pdf) fd docs ->
  forall mergedPdf w,
    for_of_acc fd (Script.mergeOne PDFLib) mergedPdf w =
    (Ok (mergedPdf ++ List.concat docs), say (flat_map (mergeCalls PDFLib) fd) w).
Proof.
  induction 1 as [| data pdf fd docs Hd Hrest IH]; intros mergedPdf w; simpl.
  - rewrite app_nil_r, say_nil. reflexivity.
  - unfold bind. rewrite mergeOne_run, Hd, IH, say_say, app_assoc.
    reflexivity.
Qed.

(** The loop stops at the first entry that fails. *)
Lemma merge_loop_fails (before : list Slot) (docs : list (list Page))
    (data : Slot) (after : list Slot) (cause : Error) :
  Forall2 (fun data pdf => pagesOf PDFLib data = inr pdf) before docs ->
  pagesOf PDFLib data = inl cause ->
  forall mergedPdf w,
    for_of_acc (before ++ data :: after) (Script.mergeOne PDFLib) mergedPdf w =
    (Throw cause,
     say (flat_map (mergeCalls PDFLib) before ++ mergeCalls PDFLib data) w).
Proof.
  intros Hbefore Hdata.
  induction Hbefore as [| d pdf fd docs Hd Hrest IH]; intros mergedPdf w; simpl.
  - unfold bind. rewrite mergeOne_run, Hdata. reflexivity.
  - unfold bind. rewrite mergeOne_run, Hd, IH, say_say, app_assoc.
    reflexivity.
Qed.

Lemma mergeCalls_no_download (data : Slot) :
  existsb is_download (mergeCalls PDFLib data) = false.
Proof.
  unfold mergeCalls. destruct data as [e |]; simpl; auto.
  destruct (file_arrayBuffer (file e)); simpl; auto.
  destruct (PDFDocument_load PDFLib b); reflexivity.
Qed.

Local Abbreviation mergePDFs := (Script.mergePDFs (Some PDFLib)).

(** A merge in which every entry loads and [save] succeeds. *)
Lemma mergePDFs_success (w : World) (docs : list (list Page))
    (pdfBytes : Bytes) :
  2 <= List.length (filesData w) ->
  Forall2 (fun data pdf => pagesOf PDFLib data = inr pdf) (filesData w) docs ->
  PDFDocument_save PDFLib (List.concat docs) = inr pdfBytes ->
  mergePDFs w =
  (Ok tt,
   set_mergeBtn_disabled false
     (set_successMessage_hidden false
        (say (Call_PDFDocument_create ::
              flat_map (mergeCalls PDFLib) (filesData w) ++
              [Call_save; Download pdfBytes "merged-document.pdf"]) w))).
Proof.
  intros Hlen Hdocs Hsave.
  unfold Script.mergePDFs. unfold bind at 1, get at 1.
  rewrite (proj2 (Nat.ltb_ge _ _) Hlen).
  unfold try_finally, try_catch, Script.downloadPDF.
  unfold bind, get, modify, emit. simpl.
  rewrite (merge_loop_ok Hdocs). simpl. rewrite Hsave. simpl.
  same_world.
Qed.

(** A merge in which an entry fails to load. *)
Lemma mergePDFs_failure (w : World) (before : list Slot)
    (docs : list (list Page)) (data : Slot) (after : list Slot)
    (cause : Error) :
  filesData w = before ++ data :: after ->
  2 <= List.length (filesData w) ->
  Forall2 (fun data pdf => pagesOf PDFLib data = inr pdf) before docs ->
  pagesOf PDFLib data = inl cause ->
  mergePDFs w =
  (Ok tt,
   set_mergeBtn_disabled false
     (say (Call_PDFDocument_create ::
           flat_map (mergeCalls PDFLib) before ++ mergeCalls PDFLib data ++
           [ConsoleError "Merge failed:" cause;
            Alert ("An error occurred while merging PDFs: " ++ cause)%string])
        w)).
Proof.
  intros Hfd Hlen Hbefore Hdata.
  unfold Script.mergePDFs. unfold bind at 1, get at 1.
  rewrite (proj2 (Nat.ltb_ge _ _) Hlen).
  unfold try_finally, try_catch, Script.downloadPDF.
  unfold bind, get, modify, emit. simpl.
  rewrite Hfd.
  rewrite merge_loop_fails with (docs := docs) (cause := cause)
    by assumption.
  simpl.
  same_world.
Qed.

Lemma effects_say {A} (m : M A) (w : World) (es : list Effect)
    (f : World -> World) :
  (forall v, log (f v) = log v) ->
  exec m w = f (say es w) -> effects m w = es.
Proof.
  intros Hf H. apply effects_of_log. rewrite H, Hf. reflexivity.
Qed.

(** C1. When every entry loads, [mergePDFs] reads, loads and copies the
    entries one after the other in the order of [filesData], and the
    document it saves and downloads has the pages of the entries
    concatenated in that order; for two entries A then B these are
    pages(A) ++ pages(B). *)
Theorem mergePDFs_concatenates_in_order (w : World)
    (docs : list (list Page)) (pdfBytes : Bytes) :
  2 <= List.length (filesData w) ->
  Forall2 (fun data pdf => pagesOf PDFLib data = inr pdf) (filesData w) docs ->
  PDFDocument_save PDFLib (List.concat docs) = inr pdfBytes ->
  result mergePDFs w = Ok tt /\
  effects mergePDFs w =
    Call_PDFDocument_create ::
    flat_map (mergeCalls PDFLib) (filesData w) ++
    [Call_save; Download pdfBytes "merged-document.pdf"] /\
  successMessage_hidden (exec mergePDFs w) = false /\
  (forall pagesA pagesB,
     docs = [pagesA; pagesB] ->
     PDFDocument_save PDFLib (pagesA ++ pagesB) = inr pdfBytes).
Proof.
  intros Hlen Hdocs Hsave.
  pose proof (mergePDFs_success w Hlen Hdocs Hsave) as Hrun.
  repeat split.
  - unfold result. rewrite Hrun. reflexivity.
  - eapply effects_say with
      (f := fun v => set_mergeBtn_disabled false
                       (set_successMessage_hidden false v)).
    + reflexivity.
    + unfold exec. rewrite Hrun. reflexivity.
  - unfold exec. rewrite Hrun. reflexivity.
  - intros pagesA pagesB ->. simpl in Hsave.
    rewrite app_nil_r in Hsave. exact Hsave.
Qed.

(** C5, as the script has it.  When an entry fails to load, [mergePDFs]
    stops there: the entries after it are not read, nothing is saved or
    downloaded, the success message is not shown, no call is repeated,
    and the error is reported by one [console.error] and one [alert]
    that carry the message of the underlying error. *)
Theorem mergePDFs_failure_aborts (w : World) (before : list Slot)
    (docs : list (list Page)) (data : Slot) (after : list Slot)
    (cause : Error) :
  filesData w = before ++ data :: after ->
  2 <= List.length (filesData w) ->
  Forall2 (fun data pdf => pagesOf PDFLib data = inr pdf) before docs ->
  pagesOf PDFLib data = inl cause ->
  result mergePDFs w = Ok tt /\
  effects mergePDFs w =
    Call_PDFDocument_create ::
    flat_map (mergeCalls PDFLib) before ++ mergeCalls PDFLib data ++
    [ConsoleError "Merge failed:" cause;
     Alert ("An error occurred while merging PDFs: " ++ cause)%string] /\
  existsb is_download (effects mergePDFs w) = false /\
  successMessage_hidden (exec mergePDFs w) = successMessage_hidden w.
Proof.
  intros Hfd Hlen Hbefore Hdata.
  pose proof (@mergePDFs_failure w before docs data after cause
                Hfd Hlen Hbefore Hdata) as Hrun.
  assert (Heff : effects mergePDFs w =
    Call_PDFDocument_create ::
    flat_map (mergeCalls PDFLib) before ++ mergeCalls PDFLib data ++
    [ConsoleError "Merge failed:" cause;
     Alert ("An error occurred while merging PDFs: " ++ cause)%string]).
  { eapply effects_say with (f := set_mergeBtn_disabled false).
    - reflexivity.
    - unfold exec. rewrite Hrun. reflexivity. }
  repeat split.
  - unfold result. rewrite Hrun. reflexivity.
  - exact Heff.
  - rewrite Heff. simpl. rewrite !existsb_app. simpl.
    rewrite mergeCalls_no_download, orb_false_r.
    clear. induction before as [| d l IH]; simpl; auto.
    rewrite existsb_app, mergeCalls_no_download, IH. reflexivity.
  - unfold exec. rewrite Hrun. reflexivity.
Qed.

End MergeLoop.

(** ** Arrays *)

Section Arrays.

Context {A : Type}.

Lemma Subseq_refl (l : list A) : Subseq l l.
Proof. induction l; constructor; assumption. Qed.

Lemma Subseq_filter (p : A -> bool) (l : list A) : Subseq (filter p l) l.
Proof.
  induction l as [| x l IH]; simpl.
  - constructor.
  - destruct (p x); constructor; assumption.
Qed.

Lemma Subseq_In (l1 l2 : list A) (x : A) : Subseq l1 l2 -> In x l1 -> In x l2.
Proof.
  induction 1 as [| y l1 l2 H IH | y l1 l2 H IH]; simpl; intro Hin.
  - exact Hin.
  - destruct Hin as [-> | Hin]; [left; reflexivity | right; auto].
  - right. auto.
Qed.

Lemma Subseq_NoDup (l1 l2 : list A) : Subseq l1 l2 -> NoDup l2 -> NoDup l1.
Proof.
  induction 1 as [| y l1 l2 H IH | y l1 l2 H IH]; intro Hnd.
  - constructor.
  - inversion Hnd as [| ? ? Hnotin Hnd']; subst. constructor; auto.
    intro Hin. apply Hnotin. eapply Subseq_In; eassumption.
  - inversion Hnd; subst. auto.
Qed.

Lemma filter_idempotent (p : A -> bool) (l : list A) :
  filter p (filter p l) = filter p l.
Proof.
  induction l as [| x l IH]; simpl; auto.
  destruct (p x) eqn:E; simpl; rewrite ?E, IH; reflexivity.
Qed.

Lemma filter_all (p : A -> bool) (l : list A) :
  (forall x, In x l -> p x = true) -> filter p l = l.
Proof.
  induction l as [| x l IH]; simpl; intro H; auto.
  rewrite (H x) by (left; reflexivity). f_equal. apply IH.
  intros y Hy. apply H. right. exact Hy.
Qed.

(** Taking one element out and putting it back elsewhere. *)
Lemma splice_move (src tgt : nat) (x : A) (before after : list A) :
  List.length before = src ->
  Permutation (before ++ x :: after)
    (splice tgt 0 [x] (splice src 1 [] (before ++ x :: after))).
Proof.
  intro Hlen. unfold splice. simpl.
  assert (Hrest : firstn src (before ++ x :: after) ++
                  skipn (src + 1) (before ++ x :: after) = before ++ after).
  { subst src. rewrite firstn_app, firstn_all, Nat.sub_diag. simpl.
    rewrite app_nil_r, skipn_app, skipn_all2 by lia.
    replace (List.length before + 1 - List.length before) with 1 by lia.
    reflexivity. }
  rewrite Hrest, Nat.add_0_r.
  transitivity (x :: before ++ after).
  { symmetry. apply Permutation_middle. }
  transitivity (x :: firstn tgt (before ++ after) ++ skipn tgt (before ++ after)).
  { rewrite firstn_skipn. reflexivity. }
  apply Permutation_middle.
Qed.

End Arrays.

Section ScriptProperties.

Variable Page : Type.
Variable Date_now : nat -> N.
Variable Math_random_toString36 : nat -> string.
Variable pdfjsLib_getDocument : Bytes -> Error + PdfJsDoc.
Variable formatSize : N -> string.
Variable window_PDFLib : option (PdfLibApi Page).

Local Abbreviation newId := (Script.newId Date_now Math_random_toString36).
Local Abbreviation addFile :=
  (Script.addFile Date_now Math_random_toString36 pdfjsLib_getDocument
     formatSize).
Local Abbreviation handleFiles :=
  (Script.handleFiles Date_now Math_random_toString36 pdfjsLib_getDocument
     formatSize).
Local Abbreviation updateUI := (Script.updateUI formatSize).
Local Abbreviation removeFile := (Script.removeFile formatSize).
Local Abbreviation clearAllFiles := (Script.clearAllFiles formatSize).
Local Abbreviation onDrop := (Script.onDrop formatSize).
Local Abbreviation mergePDFs := (Script.mergePDFs window_PDFLib).
Local Abbreviation handler :=
  (Script.handler Date_now Math_random_toString36 pdfjsLib_getDocument
     formatSize window_PDFLib).
Local Abbreviation run :=
  (Script.run Date_now Math_random_toString36 pdfjsLib_getDocument
     formatSize window_PDFLib).

(** *** Re-rendering *)

Lemma frames_renderFileList_filesData :
  frames filesData Script.renderFileList.
Proof. unfold Script.renderFileList. frame. Qed.

Lemma updateUI_filesData : frames filesData updateUI.
Proof. unfold Script.updateUI, Script.renderFileList, Script.updateStats,
    Script.updateButtons. frame. Qed.

Lemma updateUI_log : frames log updateUI.
Proof. unfold Script.updateUI, Script.renderFileList, Script.updateStats,
    Script.updateButtons. frame. Qed.

Lemma updateUI_calls : frames calls updateUI.
Proof. unfold Script.updateUI, Script.renderFileList, Script.updateStats,
    Script.updateButtons. frame. Qed.

(** A list of entries renders without error. *)
Lemma for_of_ok {A} (l : list A) (body : A -> M unit) :
  (forall x w, In x l -> result (body x) w = Ok tt) ->
  forall w, result (for_of l body) w = Ok tt.
Proof.
  induction l as [| x l IH]; intros Hbody w; simpl.
  - reflexivity.
  - unfold result, bind. specialize (Hbody x w (or_introl eq_refl)) as Hx.
    unfold result in Hx. destruct (body x w) as [r w']. simpl in Hx. subst r.
    apply IH. intros y w'' Hy. apply Hbody. right. exact Hy.
Qed.

Lemma for_of_acc_ok {A S} (l : list A) (body : S -> A -> M S) :
  (forall s x w, In x l -> exists s', result (body s x) w = Ok s') ->
  forall s w, exists s', result (for_of_acc l body s) w = Ok s'.
Proof.
  induction l as [| x l IH]; intros Hbody s w; simpl.
  - exists s. reflexivity.
  - unfold result, bind.
    destruct (Hbody s x w (or_introl eq_refl)) as [s' Hx].
    unfold result in Hx. destruct (body s x w) as [r w']. simpl in Hx. subst r.
    apply IH. intros s0 y w'' Hy. apply Hbody. right. exact Hy.
Qed.

Lemma updateUI_ok (w : World) :
  forallb defined (filesData w) = true -> result updateUI w = Ok tt.
Proof.
  intro Hdef. rewrite forallb_forall in Hdef.
  unfold Script.updateUI, result, bind.
  (* renderFileList *)
  assert (Hrender : result Script.renderFileList w = Ok tt).
  { unfold Script.renderFileList, result, bind, modify, get. simpl.
    apply for_of_ok. intros [data index] w' Hin.
    apply in_combine_l in Hin. apply Hdef in Hin.
    destruct data as [e |]; [reflexivity | discriminate]. }
  pose proof (frames_renderFileList_filesData w) as Hfd1.
  unfold result in Hrender.
  destruct (Script.renderFileList w) as [r1 w1]. simpl in *. subst r1.
  (* updateStats *)
  assert (Hstats : result (Script.updateStats formatSize) w1 = Ok tt).
  { unfold Script.updateStats, result, bind, modify, get. simpl.
    destruct (for_of_acc_ok (filesData w1)
                (fun acc curr => b <- prop_of "sizeBytes" curr sizeBytes ;;
                                 ret (acc + b)%N)) with
      (s := 0%N)
      (w := set_fileCountSpan
              (string_of_nat (List.length (filesData w1)) ++ " PDFs selected")%string
              w1) as [total Htotal].
    - intros acc curr w' Hin. rewrite Hfd1 in Hin. apply Hdef in Hin.
      destruct curr as [e |]; [| discriminate].
      exists (acc + sizeBytes e)%N. reflexivity.
    - unfold result in Htotal.
      destruct (for_of_acc _ _ _ _) as [r w2]. simpl in Htotal. subst r.
      reflexivity. }
  unfold result in Hstats.
  destruct (Script.updateStats formatSize w1) as [r2 w2]. simpl in *. subst r2.
  (* updateButtons *)
  unfold Script.updateButtons, bind, get, modify. simpl.
  destruct (0 <? List.length (filesData w2))%nat; reflexivity.
Qed.

(** *** Removing a file *)

(** The [filter] of [removeFile]: it throws on the first [undefined]
    element and leaves the state alone. *)
Lemma removeFile_filter (id0 : string) (fd : list Slot) (w : World) :
  filterM (fun f => i <- prop_of "id" f id ;;
                    ret (negb (String.eqb i id0))) fd w =
  (if forallb defined fd then Ok (filter (keeps id0) fd)
   else Throw (TypeError_undefined "id"), w).
Proof.
  induction fd as [| [e |] fd IH]; simpl.
  - reflexivity.
  - unfold bind at 1. simpl. unfold bind at 1. rewrite IH.
    destruct (forallb defined fd); reflexivity.
  - reflexivity.
Qed.

Lemma removeFile_filesData (id0 : string) (w : World) :
  filesData (exec (removeFile id0) w) =
  if forallb defined (filesData w) then filter (keeps id0) (filesData w)
  else filesData w.
Proof.
  unfold exec, Script.removeFile. unfold bind at 1, get at 1.
  unfold bind at 1. rewrite removeFile_filter.
  destruct (forallb defined (filesData w)).
  - unfold bind, modify. rewrite updateUI_filesData. reflexivity.
  - reflexivity.
Qed.

Lemma removeFile_ok (id0 : string) (w : World) :
  forallb defined (filesData w) = true -> result (removeFile id0) w = Ok tt.
Proof.
  intro Hdef. unfold result, Script.removeFile. unfold bind at 1, get at 1.
  unfold bind at 1. rewrite removeFile_filter, Hdef.
  unfold bind, modify. apply updateUI_ok. simpl.
  rewrite forallb_forall in *. intros x Hx. apply filter_In in Hx.
  apply Hdef. tauto.
Qed.

Lemma defined_entries (es : list FileEntry) :
  forallb defined (map Some es) = true.
Proof. induction es; simpl; auto. Qed.

Lemma keeps_entries (id0 : string) (es : list FileEntry) :
  filter (keeps id0) (map Some es) =
  map Some (filter (fun e => negb (String.eqb (id e) id0)) es).
Proof.
  induction es as [| e es IH]; simpl; auto.
  destruct (String.eqb (id e) id0); simpl; rewrite IH; reflexivity.
Qed.

Lemma ids_entries (es : list FileEntry) : ids (map Some es) = map id es.
Proof.
  unfold ids, entries. induction es as [| e es IH]; simpl; auto.
  f_equal. exact IH.
Qed.

(** C9. On a set of entries, [removeFile] returns without error and
    leaves the entries with another id, in the order they had; an id that
    is not in the set leaves the set as it was, and so does removing the
    same id a second time. *)
Theorem removeFile_idempotent_keeps_order (id0 : string)
    (es : list FileEntry) (w : World) :
  filesData w = map Some es ->
  let w' := exec (removeFile id0) w in
  result (removeFile id0) w = Ok tt /\
  filesData w' =
    map Some (filter (fun e => negb (String.eqb (id e) id0)) es) /\
  Subseq (filesData w') (filesData w) /\
  (~ In id0 (ids (filesData w)) -> filesData w' = filesData w) /\
  result (removeFile id0) w' = Ok tt /\
  filesData (exec (removeFile id0) w') = filesData w'.
Proof.
  intros Hfd w'.
  assert (Hdef : forallb defined (filesData w) = true).
  { rewrite Hfd. apply defined_entries. }
  assert (Hw' : filesData w' = filter (keeps id0) (filesData w)).
  { unfold w'. rewrite removeFile_filesData, Hdef. reflexivity. }
  assert (Hdef' : forallb defined (filesData w') = true).
  { rewrite Hw', Hfd, keeps_entries. apply defined_entries. }
  repeat split.
  - apply removeFile_ok. exact Hdef.
  - rewrite Hw', Hfd. apply keeps_entries.
  - rewrite Hw'. apply Subseq_filter.
  - intro Habsent. rewrite Hw'. apply filter_all.
    intros [e |] Hin; simpl; [| reflexivity].
    destruct (String.eqb_spec (id e) id0) as [Heq | Hne]; [| reflexivity].
    exfalso. apply Habsent. rewrite Hfd in *. rewrite ids_entries.
    apply in_map_iff in Hin. destruct Hin as [e' [He' Hin]].
    injection He' as ->. rewrite <- Heq. apply in_map. exact Hin.
  - apply removeFile_ok. exact Hdef'.
  - rewrite removeFile_filesData, Hdef', Hw'. apply filter_idempotent.
Qed.

(** *** Reordering *)

Lemma moveEntry_in_range (srcIndex targetIndex : nat) (fd : list Slot) :
  srcIndex < List.length fd ->
  Permutation fd (Script.moveEntry srcIndex targetIndex fd).
Proof.
  intro Hsrc. unfold Script.moveEntry.
  destruct (nth_split fd None Hsrc) as [before [after [Hfd Hlen]]].
  change (nth srcIndex fd None) with (index fd srcIndex) in Hfd.
  remember (index fd srcIndex) as header.
  rewrite Hfd. apply splice_move. exact Hlen.
Qed.

(** A source index past the end: nothing is taken out, and [undefined] is
    put in. *)
Lemma moveEntry_out_of_range (srcIndex targetIndex : nat) (fd : list Slot) :
  List.length fd <= srcIndex ->
  Script.moveEntry srcIndex targetIndex fd =
  firstn targetIndex fd ++ None :: skipn targetIndex fd.
Proof.
  intro Hsrc. unfold Script.moveEntry, index, splice.
  rewrite nth_overflow by exact Hsrc.
  rewrite (firstn_all2 fd) by exact Hsrc.
  rewrite (skipn_all2 fd) by lia.
  simpl. rewrite app_nil_r, Nat.add_0_r. reflexivity.
Qed.

Lemma moveEntry_entries (srcIndex targetIndex : nat) (fd : list Slot) :
  Permutation (entries fd) (entries (Script.moveEntry srcIndex targetIndex fd)).
Proof.
  destruct (Nat.lt_ge_cases srcIndex (List.length fd)) as [Hin | Hout].
  - unfold entries. apply Permutation_flat_map.
    apply moveEntry_in_range. exact Hin.
  - rewrite moveEntry_out_of_range by exact Hout.
    unfold entries. rewrite flat_map_app. simpl.
    rewrite <- flat_map_app, firstn_skipn. reflexivity.
Qed.

Lemma onDrop_filesData (this : Item) (w : World) :
  filesData (exec (onDrop this) w) =
  match dragSrcEl w with
  | Some src =>
      if (el src =? el this)%nat then filesData w
      else Script.moveEntry (data_index src) (data_index this) (filesData w)
  | None => filesData w
  end.
Proof.
  unfold exec, Script.onDrop. unfold bind at 1, get at 1.
  destruct (dragSrcEl w) as [src |]; simpl; [| reflexivity].
  destruct (el src =? el this)%nat; simpl; [reflexivity |].
  unfold bind, modify. rewrite updateUI_filesData. reflexivity.
Qed.

(** C8. A drop on an item never adds, loses or changes an entry: the
    entries of [filesData], and so their ids, are the same before and
    after, whatever the dragged element and the target.  When the dragged
    element is the item of an entry of the array, the array itself is
    permuted.  From [A, B, C], dragging C onto the first item gives
    [C, A, B]. *)
Theorem onDrop_permutes (this : Item) (w : World) :
  let fd' := filesData (exec (onDrop this) w) in
  Permutation (entries (filesData w)) (entries fd') /\
  Permutation (ids (filesData w)) (ids fd') /\
  (forall src,
     dragSrcEl w = Some src ->
     data_index src < List.length (filesData w) ->
     Permutation (filesData w) fd') /\
  (forall src (A B C : Slot),
     dragSrcEl w = Some src -> el src <> el this ->
     filesData w = [A; B; C] -> data_index src = 2 -> data_index this = 0 ->
     fd' = [C; A; B]).
Proof.
  intro fd'.
  assert (Hfd' : fd' =
    match dragSrcEl w with
    | Some src =>
        if (el src =? el this)%nat then filesData w
        else Script.moveEntry (data_index src) (data_index this) (filesData w)
    | None => filesData w
    end).
  { unfold fd'. apply onDrop_filesData. }
  assert (Hentries : Permutation (entries (filesData w)) (entries fd')).
  { rewrite Hfd'. destruct (dragSrcEl w) as [src |]; [| reflexivity].
    destruct (el src =? el this)%nat; [reflexivity |].
    apply moveEntry_entries. }
  repeat split.
  - exact Hentries.
  - unfold ids. apply Permutation_map. exact Hentries.
  - intros src Hsrc Hrange. rewrite Hfd', Hsrc.
    destruct (el src =? el this)%nat; [reflexivity |].
    apply moveEntry_in_range. exact Hrange.
  - intros src A B C Hsrc Hne Hfd Hs Ht. rewrite Hfd', Hsrc.
    apply Nat.eqb_neq in Hne. rewrite Hne, Hfd, Hs, Ht. reflexivity.
Qed.

(** *** Adding files *)

Local Abbreviation entryFor :=
  (entryFor Date_now Math_random_toString36 pdfjsLib_getDocument formatSize).
Local Abbreviation added :=
  (added Date_now Math_random_toString36 pdfjsLib_getDocument formatSize).
Local Abbreviation decode := (decode pdfjsLib_getDocument).
Local Abbreviation decodes := (decodes pdfjsLib_getDocument).
Local Abbreviation accepted := (accepted pdfjsLib_getDocument).
Local Abbreviation addCalls := (addCalls pdfjsLib_getDocument).

(** One call of [addFile]: it never throws, counts one more call, logs
    its calls and pushes at most one entry at the end. *)
Lemma addFile_run (f : File) (w : World) :
  addFile f w =
  (Ok tt,
   set_filesData (filesData w ++ map Some (entryFor (calls w) f))
     (say (addCalls f) (set_calls (S (calls w)) w))).
Proof.
  unfold Script.addFile, Script.generateThumbnail, Reading.entryFor,
    Reading.decode, Reading.addCalls.
  destruct (file_arrayBuffer f) as [err | buf] eqn:Hbuf;
    [| destruct (pdfjsLib_getDocument buf) as [err | pdfDoc] eqn:Hdoc;
       [| destruct (renderFirstPage pdfDoc) as [err | url] eqn:Hurl]];
    run_script; rewrite ?Hbuf; run_script; rewrite ?Hdoc; run_script;
    rewrite ?Hurl; run_script; same_world.
Qed.

(** The loop of [handleFiles]. *)
Lemma addFile_loop (files : list File) (w : World) :
  for_of files addFile w =
  (Ok tt,
   set_filesData (filesData w ++ map Some (added (calls w) files))
     (say (flat_map addCalls files)
        (set_calls (calls w + List.length files) w))).
Proof.
  revert w. induction files as [| f files IH]; intro w; simpl.
  - run_script. rewrite Nat.add_0_r. same_world.
  - unfold bind. rewrite addFile_run, IH. simpl.
    rewrite map_app, Nat.add_succ_r.
    apply f_equal2; [reflexivity |].
    destruct w; assign_fields.
    rewrite <- !app_assoc. reflexivity.
Qed.

Lemma added_files (n : nat) (files : list File) :
  map file (added n files) = filter decodes files.
Proof.
  revert n. induction files as [| f files IH]; intro n; simpl.
  - reflexivity.
  - rewrite map_app, IH. unfold Reading.entryFor, Reading.decodes.
    destruct (decode f) as [err | [buf pdfDoc]]; reflexivity.
Qed.

Lemma filter_accepted (fileList : list File) :
  filter decodes (filter Script.isPdf fileList) = filter accepted fileList.
Proof.
  induction fileList as [| f l IH]; simpl.
  - reflexivity.
  - unfold Reading.accepted at 1. destruct (Script.isPdf f); simpl.
    + rewrite IH. reflexivity.
    + exact IH.
Qed.

(** The batch holds files and none of them is a PDF. *)
Lemma handleFiles_alert (fileList : list File) (w : World) :
  filter Script.isPdf fileList = [] -> fileList <> [] ->
  handleFiles fileList w =
  (Ok tt, say [Alert Script.MAX_FILES_MSG] (set_successMessage_hidden true w)).
Proof.
  intros Hnone Hsome. unfold Script.handleFiles. rewrite Hnone.
  destruct fileList as [| f l]; [congruence |]. reflexivity.
Qed.

(** Otherwise the PDFs of the batch are added one by one, and the page is
    rendered again. *)
Lemma handleFiles_adds (fileList : list File) (w : World) :
  filter Script.isPdf fileList <> [] \/ fileList = [] ->
  handleFiles fileList w =
  updateUI
    (set_filesData
       (filesData w ++
        map Some (added (calls w) (filter Script.isPdf fileList)))
       (say (flat_map addCalls (filter Script.isPdf fileList))
          (set_calls (calls w + List.length (filter Script.isPdf fileList))
             (set_successMessage_hidden true w)))).
Proof.
  intro H. unfold Script.handleFiles.
  assert (Hcond : ((List.length (filter Script.isPdf fileList) =? 0)%nat
                   && (0 <? List.length fileList)%nat) = false).
  { destruct H as [H | ->]; [| reflexivity].
    destruct (filter Script.isPdf fileList); [congruence | reflexivity]. }
  rewrite Hcond. unfold bind at 1, modify at 1. unfold bind at 1.
  rewrite addFile_loop. reflexivity.
Qed.

Lemma handleFiles_cases (fileList : list File) :
  (filter Script.isPdf fileList = [] /\ fileList <> []) \/
  (filter Script.isPdf fileList <> [] \/ fileList = []).
Proof.
  destruct fileList as [| f l]; [right; right; reflexivity |].
  destruct (filter Script.isPdf (f :: l)) eqn:E.
  - left. split; [reflexivity | discriminate].
  - right. left. discriminate.
Qed.

Lemma handleFiles_filesData (fileList : list File) (w : World) :
  filesData (exec (handleFiles fileList) w) =
  filesData w ++ map Some (added (calls w) (filter Script.isPdf fileList)).
Proof.
  unfold exec.
  destruct (handleFiles_cases fileList) as [[Hnone Hsome] | H].
  - rewrite handleFiles_alert, Hnone by assumption. simpl.
    symmetry. apply app_nil_r.
  - rewrite handleFiles_adds by assumption.
    rewrite updateUI_filesData. reflexivity.
Qed.

Lemma handleFiles_effects (fileList : list File) (w : World) :
  filter Script.isPdf fileList <> [] \/ fileList = [] ->
  effects (handleFiles fileList) w =
  flat_map addCalls (filter Script.isPdf fileList).
Proof.
  intro H. apply effects_of_log. unfold exec.
  rewrite handleFiles_adds by assumption.
  rewrite updateUI_log. reflexivity.
Qed.

Lemma addCalls_arrayBuffer (f g : File) :
  In (Call_arrayBuffer f) (addCalls g) -> f = g.
Proof.
  unfold Reading.addCalls. simpl. intros [H | H]; [congruence |].
  destruct (file_arrayBuffer g) as [err | buf]; simpl in H.
  - destruct H as [H | [H | []]]; discriminate.
  - destruct H as [H | H]; [discriminate |].
    destruct (pdfjsLib_getDocument buf) as [err | pdfDoc]; simpl in H.
    + destruct H as [H | [H | []]]; discriminate.
    + destruct (renderFirstPage pdfDoc); simpl in H.
      * destruct H as [H | []]; discriminate.
      * destruct H.
Qed.

Lemma addCalls_no_type_alert (f : File) :
  ~ In (Alert Script.MAX_FILES_MSG) (addCalls f).
Proof.
  unfold Reading.addCalls, Script.MAX_FILES_MSG. simpl.
  intros [H | H]; [discriminate |].
  destruct (file_arrayBuffer f) as [err | buf]; simpl in H.
  - destruct H as [H | [H | []]]; discriminate.
  - destruct H as [H | H]; [discriminate |].
    destruct (pdfjsLib_getDocument buf) as [err | pdfDoc]; simpl in H.
    + destruct H as [H | [H | []]]; discriminate.
    + destruct (renderFirstPage pdfDoc); simpl in H.
      * destruct H as [H | []]; discriminate.
      * destruct H.
Qed.

(** C4, as the script has it.  Files that are not PDFs are filtered out
    before any decoding: [file.arrayBuffer()] is only ever called on a PDF,
    and every entry added belongs to a PDF.  The alert "Only PDF files are
    accepted." is raised exactly when the batch holds files and none is a
    PDF, and it is then all that happens.  When the batch holds a PDF, or
    is empty, the log is the calls and reports of the PDFs of the batch and
    nothing else, and the handler does what it does on the PDFs of the
    batch alone: the other files are dropped without any signal. *)
Theorem handleFiles_filters_non_pdf (fileList : list File) (w : World) :
  (filter Script.isPdf fileList = [] -> fileList <> [] ->
   handleFiles fileList w =
   (Ok tt, say [Alert Script.MAX_FILES_MSG] (set_successMessage_hidden true w)))
  /\
  (filter Script.isPdf fileList <> [] ->
   handleFiles fileList w = handleFiles (filter Script.isPdf fileList) w)
  /\
  (forall f, In (Call_arrayBuffer f) (effects (handleFiles fileList) w) ->
             Script.isPdf f = true)
  /\
  (forall e, In (Some e) (filesData (exec (handleFiles fileList) w)) ->
             In (Some e) (filesData w) \/ Script.isPdf (file e) = true)
  /\
  (filter Script.isPdf fileList <> [] \/ fileList = [] ->
   effects (handleFiles fileList) w =
   flat_map addCalls (filter Script.isPdf fileList))
  /\
  (In (Alert Script.MAX_FILES_MSG) (effects (handleFiles fileList) w) <->
   filter Script.isPdf fileList = [] /\ fileList <> []).
Proof.
  split; [| split; [| split; [| split; [| split; [| split]]]]].
  - apply handleFiles_alert.
  - intro Hpdf. rewrite !handleFiles_adds.
    + assert (Hidem : filter Script.isPdf (filter Script.isPdf fileList)
                      = filter Script.isPdf fileList).
      { clear. induction fileList as [| f l IH]; simpl; auto.
        destruct (Script.isPdf f) eqn:E; simpl; rewrite ?E, IH; reflexivity. }
      rewrite Hidem. reflexivity.
    + left. clear - Hpdf. intro H. apply Hpdf.
      induction fileList as [| f l IH]; simpl in *; auto.
      destruct (Script.isPdf f) eqn:E; simpl in H; rewrite ?E in H;
        [discriminate | auto].
    + left. exact Hpdf.
  - intros f Hin.
    destruct (handleFiles_cases fileList) as [[Hnone Hsome] | H].
    + unfold effects, exec in Hin.
      rewrite handleFiles_alert in Hin by assumption. simpl in Hin.
      rewrite skipn_length_app in Hin.
      destruct Hin as [Hin | []]. discriminate.
    + rewrite handleFiles_effects in Hin by assumption.
      apply in_flat_map in Hin. destruct Hin as [g [Hg Hin]].
      apply addCalls_arrayBuffer in Hin. subst g.
      apply filter_In in Hg. tauto.
  - intros e Hin. rewrite handleFiles_filesData in Hin.
    apply in_app_or in Hin. destruct Hin as [Hin | Hin]; [left; exact Hin |].
    right. apply in_map_iff in Hin. destruct Hin as [e' [He Hin]].
    injection He as ->.
    assert (Hf : In (file e) (filter accepted fileList)).
    { rewrite <- filter_accepted, <- (added_files (calls w)).
      apply in_map. exact Hin. }
    apply filter_In in Hf. destruct Hf as [_ Hf].
    apply andb_prop in Hf. tauto.
  - apply handleFiles_effects.
  - intro Hin.
    destruct (handleFiles_cases fileList) as [Halert | Hadds];
      [exact Halert |].
    rewrite handleFiles_effects in Hin by exact Hadds.
    apply in_flat_map in Hin. destruct Hin as [f [_ Hin]].
    exfalso. exact (addCalls_no_type_alert Hin).
  - intros [Hnone Hsome]. unfold effects, exec.
    rewrite handleFiles_alert by assumption. simpl.
    rewrite skipn_length_app. left. reflexivity.
Qed.

(** C6. A batch in which every file is rejected, because it is not a PDF
    or because reading or decoding it fails, leaves [filesData] as it was:
    the same entries in the same order, and nothing of the rejected files.
    So does a call of [addFile] on a PDF of such a batch, in any state. *)
Theorem rejected_files_keep_filesData (fileList : list File) (w : World) :
  (forall f, In f fileList -> accepted f = false) ->
  filesData (exec (handleFiles fileList) w) = filesData w /\
  (forall X w0, In X fileList -> Script.isPdf X = true ->
                filesData (exec (addFile X) w0) = filesData w0).
Proof.
  intro Hrej. split.
  - rewrite handleFiles_filesData.
    assert (Hnone : added (calls w) (filter Script.isPdf fileList) = []).
    { apply map_eq_nil with (f := file).
      rewrite added_files, filter_accepted.
      clear - Hrej. induction fileList as [| f l IH]; simpl; auto.
      rewrite (Hrej f) by (left; reflexivity).
      apply IH. intros g Hg. apply Hrej. right. exact Hg. }
    rewrite Hnone. apply app_nil_r.
  - intros X w0 HX Hpdf. apply Hrej in HX.
    unfold Reading.accepted in HX. rewrite Hpdf in HX. simpl in HX.
    unfold exec. rewrite addFile_run. simpl.
    unfold Reading.entryFor. unfold Reading.decodes in HX.
    destruct (decode X) as [err | [buf pdfDoc]]; [| discriminate].
    apply app_nil_r.
Qed.

(** C10. The PDFs of one batch are read and decoded one after the other,
    in the order of the batch, and the entries of those that decode are
    appended to [filesData] in that same order. *)
Theorem handleFiles_appends_in_batch_order (fileList : list File) (w : World) :
  let new := added (calls w) (filter Script.isPdf fileList) in
  filesData (exec (handleFiles fileList) w) = filesData w ++ map Some new /\
  map file new = filter accepted fileList /\
  (filter Script.isPdf fileList = [] \/
   effects (handleFiles fileList) w =
   flat_map addCalls (filter Script.isPdf fileList)).
Proof.
  repeat split.
  - apply handleFiles_filesData.
  - rewrite added_files. apply filter_accepted.
  - destruct (filter Script.isPdf fileList) eqn:E; [left; reflexivity |].
    right. rewrite <- E. apply handleFiles_effects. left. congruence.
Qed.

(** *** Ids *)

Lemma ids_app (fd1 fd2 : list Slot) : ids (fd1 ++ fd2) = ids fd1 ++ ids fd2.
Proof. unfold ids, entries. rewrite flat_map_app, map_app. reflexivity. Qed.

Lemma ids_filter (id0 : string) (fd : list Slot) :
  ids (filter (keeps id0) fd) =
  filter (fun i => negb (String.eqb i id0)) (ids fd).
Proof.
  unfold ids, entries. induction fd as [| [e |] fd IH]; simpl; auto.
  destruct (String.eqb (id e) id0); simpl; rewrite IH; reflexivity.
Qed.

(** The ids of the entries pushed by successive calls are among the ids
    generated for those calls, in order. *)
Lemma added_ids (n : nat) (files : list File) :
  Subseq (map id (added n files)) (map newId (seq n (List.length files))).
Proof.
  revert n. induction files as [| f files IH]; intro n; simpl.
  - constructor.
  - unfold Reading.entryFor.
    destruct (decode f) as [err | [buf pdfDoc]]; simpl.
    + apply Subseq_drop. apply IH.
    + apply Subseq_keep. apply IH.
Qed.

Lemma handleFiles_calls (fileList : list File) (w : World) :
  calls (exec (handleFiles fileList) w) =
  calls w + List.length (filter Script.isPdf fileList).
Proof.
  unfold exec.
  destruct (handleFiles_cases fileList) as [[Hnone Hsome] | H].
  - rewrite handleFiles_alert, Hnone by assumption. simpl. lia.
  - rewrite handleFiles_adds by assumption.
    rewrite updateUI_calls. reflexivity.
Qed.

Lemma removeFile_calls (id0 : string) : frames calls (removeFile id0).
Proof.
  unfold Script.removeFile, Script.updateUI, Script.renderFileList,
    Script.updateStats, Script.updateButtons. frame.
Qed.

Lemma clearAllFiles_calls : frames calls clearAllFiles.
Proof.
  unfold Script.clearAllFiles, Script.updateUI, Script.renderFileList,
    Script.updateStats, Script.updateButtons. frame.
Qed.

Lemma onDrop_calls (this : Item) : frames calls (onDrop this).
Proof.
  unfold Script.onDrop, Script.updateUI, Script.renderFileList,
    Script.updateStats, Script.updateButtons. frame.
Qed.

Lemma mergePDFs_filesData : frames filesData mergePDFs.
Proof.
  unfold Script.mergePDFs, Script.mergeOne, Script.downloadPDF, emit. frame.
Qed.

Lemma mergePDFs_calls : frames calls mergePDFs.
Proof.
  unfold Script.mergePDFs, Script.mergeOne, Script.downloadPDF, emit. frame.
Qed.

Lemma clearAllFiles_filesData (w : World) :
  filesData (exec clearAllFiles w) = [].
Proof.
  unfold exec, Script.clearAllFiles. unfold bind at 1, modify at 1.
  assert (H : frames filesData
                (updateUI ;;
                 modify (set_fileInput_value "") ;;
                 modify (set_successMessage_hidden true))).
  { unfold Script.updateUI, Script.renderFileList, Script.updateStats,
      Script.updateButtons. frame. }
  rewrite H. reflexivity.
Qed.

(** Every id in the array was generated by an earlier call of [addFile],
    and no id occurs twice: the invariant behind uniqueness. *)
Lemma ids_generated_step (ev : Script.Event) (w : World) :
  Injective newId ->
  (NoDup (ids (filesData w)) /\
   forall i, In i (ids (filesData w)) -> exists n, n < calls w /\ i = newId n) ->
  NoDup (ids (filesData (exec (handler ev) w))) /\
  forall i, In i (ids (filesData (exec (handler ev) w))) ->
            exists n, n < calls (exec (handler ev) w) /\ i = newId n.
Proof.
  intros Hinj [Hnd Hgen].
  assert (Hkeep : forall w',
    calls w' = calls w ->
    (NoDup (ids (filesData w)) -> NoDup (ids (filesData w'))) ->
    (forall i, In i (ids (filesData w')) -> In i (ids (filesData w))) ->
    NoDup (ids (filesData w')) /\
    forall i, In i (ids (filesData w')) -> exists n, n < calls w' /\ i = newId n).
  { intros w' Hcalls Hnd' Hin. split; [auto |].
    intros i Hi. rewrite Hcalls. auto. }
  destruct ev as [fileList | id0 | item | this | |]; unfold Script.handler.
  - (* files dropped or chosen *)
    rewrite handleFiles_filesData, handleFiles_calls, ids_app, ids_entries.
    set (newFiles := filter Script.isPdf fileList).
    pose proof (added_ids (calls w) newFiles) as Hsub.
    assert (Hfresh : forall i,
      In i (map id (added (calls w) newFiles)) ->
      exists n, calls w <= n < calls w + List.length newFiles /\ i = newId n).
    { intros i Hi. apply (@Subseq_In _ _ _ i Hsub) in Hi.
      apply in_map_iff in Hi. destruct Hi as [n [Hn Hi]].
      apply in_seq in Hi. exists n. split; [lia | congruence]. }
    split.
    + apply NoDup_app.
      * exact Hnd.
      * apply (Subseq_NoDup Hsub).
        apply Injective_map_NoDup; [exact Hinj | apply seq_NoDup].
      * intros i Hold Hnew.
        destruct (Hgen i Hold) as [n [Hn Hi]].
        destruct (Hfresh i Hnew) as [m [Hm Hi']].
        assert (n = m) by (apply Hinj; congruence). lia.
    + intros i Hi. apply in_app_or in Hi. destruct Hi as [Hi | Hi].
      * destruct (Hgen i Hi) as [n [Hn Hi']]. exists n. split; [lia | auto].
      * destruct (Hfresh i Hi) as [n [Hn Hi']]. exists n. split; [lia | auto].
  - (* remove button *)
    apply Hkeep.
    + apply (removeFile_calls id0).
    + rewrite removeFile_filesData.
      destruct (forallb defined (filesData w)); [| auto].
      rewrite ids_filter. apply NoDup_filter.
    + intro i. rewrite removeFile_filesData.
      destruct (forallb defined (filesData w)); [| auto].
      rewrite ids_filter. intro Hi. apply filter_In in Hi. tauto.
  - (* drag start *)
    apply Hkeep; auto.
  - (* drop on an item *)
    assert (Hperm : Permutation (ids (filesData w))
                      (ids (filesData (exec (onDrop this) w)))).
    { rewrite onDrop_filesData.
      destruct (dragSrcEl w) as [src |]; [| reflexivity].
      destruct (el src =? el this)%nat; [reflexivity |].
      unfold ids. apply Permutation_map, moveEntry_entries. }
    apply Hkeep.
    + apply (onDrop_calls this).
    + intro H. eapply Permutation_NoDup; eassumption.
    + intros i Hi. eapply Permutation_in; [symmetry |]; eassumption.
  - (* clear *)
    apply Hkeep.
    + apply clearAllFiles_calls.
    + rewrite clearAllFiles_filesData. constructor.
    + rewrite clearAllFiles_filesData. intros i [].
  - (* merge *)
    apply Hkeep.
    + apply mergePDFs_calls.
    + unfold exec. rewrite mergePDFs_filesData. auto.
    + unfold exec. rewrite mergePDFs_filesData. auto.
Qed.

(** C2, as the script has it.  The script never compares ids: an id is
    the clock reading followed by nine characters of a random number.  As
    long as no two calls of [addFile] are given the same id, the ids in
    [filesData] are pairwise distinct after any sequence of batches added,
    files removed, items dragged and dropped, clears and merges, starting
    from an empty array. *)
Theorem ids_unique_when_generated_ids_differ (evs : list Script.Event)
    (w : World) :
  Injective newId ->
  filesData w = [] ->
  NoDup (ids (filesData (run evs w))).
Proof.
  intros Hinj Hempty.
  assert (Hstart : NoDup (ids (filesData w)) /\
    forall i, In i (ids (filesData w)) -> exists n, n < calls w /\ i = newId n).
  { rewrite Hempty. split; [constructor | intros i []]. }
  clear Hempty. revert w Hstart.
  induction evs as [| ev evs IH]; intros w Hstart; simpl.
  - apply Hstart.
  - apply IH. apply ids_generated_step; assumption.
Qed.

(** *** Merge *)

(** C7. [mergePDFs] never changes [filesData]: after the call, whether the
    merge was skipped, succeeded or failed, the array holds the same
    entries, with the same fields, in the same order. *)
Theorem mergePDFs_keeps_filesData (w : World) :
  filesData (exec mergePDFs w) = filesData w.
Proof.
  apply mergePDFs_filesData.
Qed.

(** C3, as the script has it.  With fewer than two entries [mergePDFs]
    returns at once: it does not throw, the state is unchanged, nothing is
    logged (no library is called, nothing is downloaded) and nothing is
    signalled. *)
Theorem mergePDFs_below_two_returns (w : World) :
  List.length (filesData w) < 2 ->
  mergePDFs w = (Ok tt, w) /\
  effects mergePDFs w = [] /\
  ~ signals mergePDFs w.
Proof.
  intro H.
  assert (Hrun : mergePDFs w = (Ok tt, w)).
  { unfold Script.mergePDFs, bind, get.
    apply Nat.ltb_lt in H. rewrite H. reflexivity. }
  assert (Hnone : effects mergePDFs w = []).
  { unfold effects, exec. rewrite Hrun. apply skipn_all. }
  repeat split.
  - exact Hrun.
  - exact Hnone.
  - unfold signals, result. rewrite Hnone, Hrun.
    intros [[e He] | He]; discriminate.
Qed.

End ScriptProperties.

(** * More of the script *)

(** ** Splices *)

Section Splices.

Context {A : Type}.

Lemma splice_insert_length (k : nat) (x : A) (l : list A) :
  List.length (splice k 0 [x] l) = S (List.length l).
Proof.
  unfold splice. rewrite Nat.add_0_r, !length_app. simpl.
  rewrite <- (firstn_skipn k l) at 3. rewrite length_app. lia.
Qed.

Lemma splice_remove_length (k : nat) (l : list A) :
  k < List.length l -> List.length (splice k 1 [] l) = List.length l - 1.
Proof.
  intro Hk. unfold splice. simpl.
  rewrite length_app, length_firstn, length_skipn. lia.
Qed.

(** An insertion past the end is an insertion at the end. *)
Lemma splice_insert_clamped (k : nat) (x : A) (l : list A) :
  splice k 0 [x] l = splice (Nat.min k (List.length l)) 0 [x] l.
Proof.
  destruct (Nat.le_gt_cases k (List.length l)) as [Hle | Hgt].
  - rewrite Nat.min_l by exact Hle. reflexivity.
  - rewrite Nat.min_r by lia. unfold splice.
    rewrite !Nat.add_0_r, firstn_all, skipn_all.
    rewrite firstn_all2, skipn_all2 by lia. reflexivity.
Qed.

Lemma splice_remove_at (k : nat) (x : A) (before after : list A) :
  List.length before = k ->
  splice k 1 [] (before ++ x :: after) = before ++ after.
Proof.
  intros <-. unfold splice. simpl.
  rewrite firstn_app, firstn_all, Nat.sub_diag. simpl. rewrite app_nil_r.
  rewrite skipn_app, skipn_all2 by lia.
  replace (List.length before + 1 - List.length before) with 1 by lia.
  reflexivity.
Qed.

Lemma splice_insert_at (k : nat) (x : A) (before after : list A) :
  List.length before = k ->
  splice k 0 [x] (before ++ after) = before ++ x :: after.
Proof.
  intros <-. unfold splice. rewrite Nat.add_0_r.
  rewrite firstn_app, firstn_all, Nat.sub_diag. simpl. rewrite app_nil_r.
  rewrite skipn_app, skipn_all, Nat.sub_diag. reflexivity.
Qed.

Lemma split_at (k : nat) (l : list A) :
  k <= List.length l ->
  exists before after, l = before ++ after /\ List.length before = k.
Proof.
  intro Hk. exists (firstn k l), (skipn k l). split.
  - symmetry. apply firstn_skipn.
  - rewrite length_firstn. lia.
Qed.

Lemma splice_insert_nth (k : nat) (x d : A) (l : list A) :
  k <= List.length l -> nth k (splice k 0 [x] l) d = x.
Proof.
  intro Hk. destruct (split_at l Hk) as [before [after [-> Hlen]]].
  rewrite splice_insert_at by exact Hlen. subst k. apply nth_middle.
Qed.

Lemma splice_insert_remove (k : nat) (x : A) (l : list A) :
  k <= List.length l -> splice k 1 [] (splice k 0 [x] l) = l.
Proof.
  intro Hk. destruct (split_at l Hk) as [before [after [-> Hlen]]].
  rewrite splice_insert_at by exact Hlen. apply splice_remove_at. exact Hlen.
Qed.

Lemma splice_remove_insert (k : nat) (d : A) (l : list A) :
  k < List.length l -> splice k 0 [nth k l d] (splice k 1 [] l) = l.
Proof.
  intro Hk. destruct (nth_split l d Hk) as [before [after [Hl Hlen]]].
  remember (nth k l d) as x. rewrite Hl.
  rewrite splice_remove_at by exact Hlen. apply splice_insert_at. exact Hlen.
Qed.

End Splices.

Section MoreScriptProperties.

Variable Page : Type.
Variable Date_now : nat -> N.
Variable Math_random_toString36 : nat -> string.
Variable pdfjsLib_getDocument : Bytes -> Error + PdfJsDoc.
Variable formatSize : N -> string.
Variable window_PDFLib : option (PdfLibApi Page).

Local Abbreviation newId := (Script.newId Date_now Math_random_toString36).
Local Abbreviation addFile :=
  (Script.addFile Date_now Math_random_toString36 pdfjsLib_getDocument
     formatSize).
Local Abbreviation handleFiles :=
  (Script.handleFiles Date_now Math_random_toString36 pdfjsLib_getDocument
     formatSize).
Local Abbreviation updateUI := (Script.updateUI formatSize).
Local Abbreviation updateStats := (Script.updateStats formatSize).
Local Abbreviation removeFile := (Script.removeFile formatSize).
Local Abbreviation clearAllFiles := (Script.clearAllFiles formatSize).
Local Abbreviation onDrop := (Script.onDrop formatSize).
Local Abbreviation mergePDFs := (Script.mergePDFs window_PDFLib).
Local Abbreviation handler :=
  (Script.handler Date_now Math_random_toString36 pdfjsLib_getDocument
     formatSize window_PDFLib).
Local Abbreviation run :=
  (Script.run Date_now Math_random_toString36 pdfjsLib_getDocument
     formatSize window_PDFLib).
Local Abbreviation decodes := (decodes pdfjsLib_getDocument).
Local Abbreviation addCalls := (addCalls pdfjsLib_getDocument).

(** *** Where a dragged entry lands *)

Lemma moveEntry_as_insert (srcIndex targetIndex : nat) (fd : list Slot) :
  srcIndex < List.length fd ->
  let rest := splice srcIndex 1 [] fd in
  let target := Nat.min targetIndex (List.length fd - 1) in
  Script.moveEntry srcIndex targetIndex fd =
    splice target 0 [index fd srcIndex] rest /\
  target <= List.length rest.
Proof.
  intros Hsrc rest target.
  assert (Hrest : List.length rest = List.length fd - 1).
  { apply splice_remove_length. exact Hsrc. }
  split; [| unfold target; lia].
  unfold Script.moveEntry, target, rest in *.
  rewrite splice_insert_clamped. f_equal. f_equal. exact Hrest.
Qed.

(** X1.  The drop of the item of an entry on another item puts that entry at
    the index of the target, or at the end when the target index is past
    it; the array keeps its length, and the other elements keep their
    relative order. *)
Theorem onDrop_moves_to_target (src this : Item) (w : World) :
  dragSrcEl w = Some src ->
  el src <> el this ->
  data_index src < List.length (filesData w) ->
  let fd := filesData w in
  let fd' := filesData (exec (onDrop this) w) in
  let target := Nat.min (data_index this) (List.length fd - 1) in
  List.length fd' = List.length fd /\
  index fd' target = index fd (data_index src) /\
  splice target 1 [] fd' = splice (data_index src) 1 [] fd.
Proof.
  intros Hsrc Hne Hrange fd fd' target.
  assert (Hfd' : fd' =
            Script.moveEntry (data_index src) (data_index this) fd).
  { unfold fd'. rewrite onDrop_filesData, Hsrc.
    apply Nat.eqb_neq in Hne. rewrite Hne. reflexivity. }
  destruct (moveEntry_as_insert (data_index this) fd Hrange) as [Hmove Htarget].
  fold target in Hmove, Htarget. rewrite Hfd', Hmove.
  repeat split.
  - rewrite splice_insert_length, splice_remove_length by exact Hrange.
    unfold fd in *. lia.
  - apply splice_insert_nth. exact Htarget.
  - apply splice_insert_remove. exact Htarget.
Qed.

(** X2.  Dragging an entry to another position and back restores the array,
    and so does moving it to the position it has. *)
Theorem moveEntry_back_and_forth (srcIndex targetIndex : nat)
    (fd : list Slot) :
  srcIndex < List.length fd ->
  targetIndex < List.length fd ->
  Script.moveEntry targetIndex srcIndex
    (Script.moveEntry srcIndex targetIndex fd) = fd /\
  Script.moveEntry srcIndex srcIndex fd = fd.
Proof.
  intros Hsrc Htgt.
  assert (Hrest : List.length (splice srcIndex 1 [] fd) = List.length fd - 1).
  { apply splice_remove_length. exact Hsrc. }
  assert (Hle : targetIndex <= List.length (splice srcIndex 1 [] fd)).
  { rewrite Hrest. lia. }
  split.
  - unfold Script.moveEntry.
    set (x := index fd srcIndex).
    assert (Hx : index (splice targetIndex 0 [x] (splice srcIndex 1 [] fd))
                   targetIndex = x).
    { apply splice_insert_nth. exact Hle. }
    rewrite Hx, splice_insert_remove by exact Hle.
    apply splice_remove_insert. exact Hsrc.
  - unfold Script.moveEntry. apply splice_remove_insert. exact Hsrc.
Qed.

(** *** What [updateUI] shows *)

Lemma for_of_cons {A} (x : A) (l : list A) (body : A -> M unit) (w : World) :
  for_of (x :: l) body w =
  match body x w with
  | (Ok _, w') => for_of l body w'
  | (Throw e, w') => (Throw e, w')
  end.
Proof. reflexivity. Qed.

Local Abbreviation renderItem :=
  (fun '(data, index) =>
     item <- get nextEl ;;
     modify (set_nextEl (S item)) ;;
     data_id <- prop_of "id" data id ;;
     modify (fun w =>
       set_fileListElement
         (fileListElement w ++ [mkItem item data_id index]) w)).

(** The loop of [renderFileList], from any index and any state. *)
Lemma render_loop (fd : list Slot) :
  forall k w,
    for_of (combine fd (seq k (List.length fd))) renderItem w =
    (if forallb defined fd then Ok tt else Throw (TypeError_undefined "id"),
     set_fileListElement (fileListElement w ++ rendered (nextEl w) k fd)
       (set_nextEl (nextEl w + created fd) w)).
Proof.
  induction fd as [| [e |] fd IH]; intros k w.
  - simpl. unfold ret. apply f_equal2; [reflexivity |].
    destruct w; assign_fields. rewrite app_nil_r, Nat.add_0_r. reflexivity.
  - transitivity
      (for_of (combine fd (seq (S k) (List.length fd))) renderItem
         (set_fileListElement
            (fileListElement w ++ [mkItem (nextEl w) (id e) k])
            (set_nextEl (S (nextEl w)) w))); [reflexivity |].
    rewrite IH. apply f_equal2; [reflexivity |].
    destruct w; assign_fields. cbn [rendered created].
    rewrite <- app_assoc, Nat.add_succ_r. reflexivity.
  - transitivity
      (@Throw unit (TypeError_undefined "id"), set_nextEl (S (nextEl w)) w);
      [reflexivity |].
    cbn [forallb defined andb rendered created].
    apply f_equal2; [reflexivity |].
    destruct w; assign_fields. rewrite app_nil_r, Nat.add_1_r. reflexivity.
Qed.

Lemma renderFileList_run (w : World) :
  Script.renderFileList w =
  (if forallb defined (filesData w) then Ok tt
   else Throw (TypeError_undefined "id"),
   set_fileListElement (rendered (nextEl w) 0 (filesData w))
     (set_nextEl (nextEl w + created (filesData w)) w)).
Proof.
  unfold Script.renderFileList. unfold bind at 1, modify at 1.
  unfold bind at 1, get at 1.
  change (filesData (set_fileListElement [] w)) with (filesData w).
  rewrite render_loop. apply f_equal2; [reflexivity |].
  destruct w; assign_fields. reflexivity.
Qed.

(** The [reduce] of [updateStats]. *)
Lemma stats_loop (fd : list Slot) :
  forall acc w,
    for_of_acc fd
      (fun acc curr => b <- prop_of "sizeBytes" curr sizeBytes ;;
                       ret (acc + b)%N) acc w =
    (if forallb defined fd
     then Ok (fold_left (fun acc e => (acc + sizeBytes e)%N) (entries fd) acc)
     else Throw (TypeError_undefined "sizeBytes"), w).
Proof.
  induction fd as [| [e |] fd IH]; intros acc w.
  - reflexivity.
  - cbn [for_of_acc]. unfold bind at 1. cbn [prop_of]. unfold bind at 1.
    unfold ret at 1 2. rewrite IH. reflexivity.
  - reflexivity.
Qed.

Lemma updateStats_run (w : World) :
  forallb defined (filesData w) = true ->
  updateStats w =
  (Ok tt,
   set_totalSizeSpan ("Total size: " ++ formatSize (totalBytes (filesData w)))%string
     (set_fileCountSpan
        (string_of_nat (List.length (filesData w)) ++ " PDFs selected")%string
        w)).
Proof.
  intro Hdef. unfold Script.updateStats. unfold bind at 1, get at 1.
  unfold bind at 1, modify at 1. unfold bind at 1.
  rewrite stats_loop, Hdef. reflexivity.
Qed.

Lemma updateButtons_run (w : World) :
  Script.updateButtons w =
  (Ok tt,
   set_clearBtn_hidden (negb (0 <? List.length (filesData w))%nat)
     (set_mergeBtn_disabled (List.length (filesData w) <? 2)%nat w)).
Proof.
  unfold Script.updateButtons, bind, get, modify.
  change (filesData (set_mergeBtn_disabled _ w)) with (filesData w).
  destruct (0 <? List.length (filesData w))%nat; reflexivity.
Qed.

(** [updateUI] on an array without [undefined]. *)
Lemma updateUI_run (w : World) :
  forallb defined (filesData w) = true ->
  updateUI w =
  (Ok tt,
   set_clearBtn_hidden (negb (0 <? List.length (filesData w))%nat)
     (set_mergeBtn_disabled (List.length (filesData w) <? 2)%nat
        (set_totalSizeSpan
           ("Total size: " ++ formatSize (totalBytes (filesData w)))%string
           (set_fileCountSpan
              (string_of_nat (List.length (filesData w)) ++ " PDFs selected")%string
              (set_fileListElement (rendered (nextEl w) 0 (filesData w))
                 (set_nextEl (nextEl w + created (filesData w)) w)))))).
Proof.
  intro Hdef. unfold Script.updateUI. unfold bind at 1.
  rewrite renderFileList_run, Hdef. unfold bind at 1.
  rewrite updateStats_run by exact Hdef.
  rewrite updateButtons_run. reflexivity.
Qed.

(** [updateUI] on an array with [undefined] in it stops in
    [renderFileList]. *)
Lemma updateUI_stops (w : World) :
  forallb defined (filesData w) = false ->
  updateUI w =
  (Throw (TypeError_undefined "id"),
   set_fileListElement (rendered (nextEl w) 0 (filesData w))
     (set_nextEl (nextEl w + created (filesData w)) w)).
Proof.
  intro Hdef. unfold Script.updateUI. unfold bind at 1.
  rewrite renderFileList_run, Hdef. reflexivity.
Qed.

Lemma rendered_entries (el0 index0 : nat) (es : list FileEntry) :
  map data_id (rendered el0 index0 (map Some es)) = map id es /\
  map data_index (rendered el0 index0 (map Some es)) =
    seq index0 (List.length es) /\
  map el (rendered el0 index0 (map Some es)) = seq el0 (List.length es).
Proof.
  revert el0 index0. induction es as [| e es IH]; intros el0 index0; simpl.
  - auto.
  - destruct (IH (S el0) (S index0)) as (H1 & H2 & H3).
    rewrite H1, H2, H3. auto.
Qed.

Lemma rendered_length (el0 index0 : nat) (fd : list Slot) :
  forallb defined fd = false ->
  List.length (rendered el0 index0 fd) < List.length fd.
Proof.
  revert el0 index0. induction fd as [| [e |] fd IH]; intros el0 index0 H;
    simpl in *.
  - discriminate.
  - specialize (IH (S el0) (S index0) H). lia.
  - lia.
Qed.

Lemma totalBytes_sum (es : list FileEntry) :
  totalBytes (map Some es) = fold_right N.add 0%N (map sizeBytes es).
Proof.
  unfold totalBytes.
  assert (Hentries : entries (map Some es) = es).
  { unfold entries. induction es as [| e es IH]; simpl; congruence. }
  rewrite Hentries.
  assert (H : forall acc,
    fold_left (fun acc e => (acc + sizeBytes e)%N) es acc =
    (acc + fold_right N.add 0 (map sizeBytes es))%N).
  { clear Hentries. induction es as [| e es IH]; intro acc; simpl.
    - lia.
    - rewrite IH. lia. }
  rewrite H. lia.
Qed.

(** X4.  After [updateUI] on an array of entries, the list shows one item per
    entry, in the order of the array: the i-th item carries index i and the
    id of the i-th entry, and every item is a new element. *)
Theorem updateUI_renders_entries (es : list FileEntry) (w : World) :
  filesData w = map Some es ->
  let items := fileListElement (exec updateUI w) in
  result updateUI w = Ok tt /\
  map data_id items = map id es /\
  map data_index items = seq 0 (List.length es) /\
  map el items = seq (nextEl w) (List.length es).
Proof.
  intros Hfd items.
  assert (Hdef : forallb defined (filesData w) = true).
  { rewrite Hfd. apply defined_entries. }
  assert (Hitems : items = rendered (nextEl w) 0 (filesData w)).
  { unfold items, exec. rewrite updateUI_run by exact Hdef. reflexivity. }
  split.
  - unfold result. rewrite updateUI_run by exact Hdef. reflexivity.
  - rewrite Hitems, Hfd. apply rendered_entries.
Qed.

(** X5.  After [updateUI] on an array of entries, the counter shows the number
    of entries, the total is the sum of their sizes, the merge button is
    disabled exactly below two entries and the clear button is hidden
    exactly when there is none. *)
Theorem updateUI_shows_stats_and_buttons (es : list FileEntry) (w : World) :
  filesData w = map Some es ->
  let w' := exec updateUI w in
  fileCountSpan w' =
    (string_of_nat (List.length es) ++ " PDFs selected")%string /\
  totalSizeSpan w' =
    ("Total size: " ++
     formatSize (fold_right N.add 0%N (map sizeBytes es)))%string /\
  mergeBtn_disabled w' = (List.length es <? 2)%nat /\
  clearBtn_hidden w' = (List.length es =? 0)%nat.
Proof.
  intros Hfd w'.
  assert (Hdef : forallb defined (filesData w) = true).
  { rewrite Hfd. apply defined_entries. }
  assert (Hw' : w' = snd (updateUI w)) by reflexivity.
  rewrite updateUI_run in Hw' by exact Hdef. cbn [snd] in Hw'.
  assert (Hlen : List.length (filesData w) = List.length es).
  { rewrite Hfd. apply length_map. }
  repeat split; rewrite Hw'.
  - change (fileCountSpan _) with
      (string_of_nat (List.length (filesData w)) ++ " PDFs selected")%string.
    rewrite Hlen. reflexivity.
  - change (totalSizeSpan _) with
      ("Total size: " ++ formatSize (totalBytes (filesData w)))%string.
    rewrite Hfd, totalBytes_sum. reflexivity.
  - change (mergeBtn_disabled _) with (List.length (filesData w) <? 2)%nat.
    rewrite Hlen. reflexivity.
  - change (clearBtn_hidden _) with
      (negb (0 <? List.length (filesData w))%nat).
    rewrite Hlen. destruct es; reflexivity.
Qed.

(** X6.  With [undefined] in the array, [updateUI] throws a [TypeError] while
    rendering: the list stops before the first [undefined], and the
    counter, the total and the two buttons are left as they were. *)
Theorem updateUI_with_undefined_throws (w : World) :
  forallb defined (filesData w) = false ->
  let w' := exec updateUI w in
  result updateUI w = Throw (TypeError_undefined "id") /\
  fileListElement w' = rendered (nextEl w) 0 (filesData w) /\
  List.length (fileListElement w') < List.length (filesData w) /\
  fileCountSpan w' = fileCountSpan w /\
  totalSizeSpan w' = totalSizeSpan w /\
  mergeBtn_disabled w' = mergeBtn_disabled w /\
  clearBtn_hidden w' = clearBtn_hidden w.
Proof.
  intros Hdef w'. unfold w', exec, result.
  rewrite updateUI_stops by exact Hdef. cbn [fst snd].
  repeat split.
  change (List.length (rendered (nextEl w) 0 (filesData w))
          < List.length (filesData w)).
  apply rendered_length. exact Hdef.
Qed.

(** *** Arrays with [undefined] in them *)

(** X7.  With [undefined] in the array, the [filter] of [removeFile] throws a
    [TypeError] on it: nothing is removed, nothing is rendered again, the
    state is what it was. *)
Theorem removeFile_with_undefined_throws (id0 : string) (w : World) :
  forallb defined (filesData w) = false ->
  removeFile id0 w = (Throw (TypeError_undefined "id"), w).
Proof.
  intro Hdef. unfold Script.removeFile. unfold bind at 1, get at 1.
  unfold bind at 1. rewrite removeFile_filter, Hdef. reflexivity.
Qed.

Lemma onDrop_run (src this : Item) (w : World) :
  dragSrcEl w = Some src ->
  el src <> el this ->
  onDrop this w =
  updateUI
    (set_filesData
       (Script.moveEntry (data_index src) (data_index this) (filesData w)) w).
Proof.
  intros Hsrc Hne. unfold Script.onDrop. unfold bind at 1, get at 1.
  rewrite Hsrc. cbn [Script.differs]. apply Nat.eqb_neq in Hne. rewrite Hne.
  reflexivity.
Qed.

Lemma undefined_inserted (k : nat) (fd : list Slot) :
  forallb defined (firstn k fd ++ None :: skipn k fd) = false.
Proof.
  rewrite forallb_app. simpl. apply andb_false_r.
Qed.

(** X3.  A drop whose dragged element carries an index past the end of the
    array takes nothing out and splices [undefined] in at the target: the
    entries stay, in their order, the array is one longer, and rendering
    throws a [TypeError], so the buttons are not updated. *)
Theorem stale_drop_inserts_undefined (src this : Item) (w : World) :
  dragSrcEl w = Some src ->
  el src <> el this ->
  List.length (filesData w) <= data_index src ->
  let w' := exec (onDrop this) w in
  filesData w' =
    firstn (data_index this) (filesData w) ++
    None :: skipn (data_index this) (filesData w) /\
  entries (filesData w') = entries (filesData w) /\
  List.length (filesData w') = S (List.length (filesData w)) /\
  result (onDrop this) w = Throw (TypeError_undefined "id") /\
  mergeBtn_disabled w' = mergeBtn_disabled w /\
  clearBtn_hidden w' = clearBtn_hidden w.
Proof.
  intros Hsrc Hne Hout w'.
  pose proof (moveEntry_out_of_range (data_index this) (filesData w) Hout)
    as Hmove.
  assert (Hrun : onDrop this w =
    (Throw (TypeError_undefined "id"),
     set_fileListElement
       (rendered (nextEl w) 0
          (firstn (data_index this) (filesData w) ++
           None :: skipn (data_index this) (filesData w)))
       (set_nextEl
          (nextEl w +
           created (firstn (data_index this) (filesData w) ++
                    None :: skipn (data_index this) (filesData w)))
          (set_filesData
             (firstn (data_index this) (filesData w) ++
              None :: skipn (data_index this) (filesData w)) w)))).
  { rewrite (@onDrop_run src this w Hsrc Hne), Hmove.
    rewrite updateUI_stops by apply undefined_inserted. reflexivity. }
  assert (Hfd' : filesData w' =
            firstn (data_index this) (filesData w) ++
            None :: skipn (data_index this) (filesData w)).
  { unfold w', exec. rewrite Hrun. reflexivity. }
  repeat split.
  - exact Hfd'.
  - rewrite Hfd'. unfold entries. rewrite flat_map_app. simpl.
    rewrite <- flat_map_app, firstn_skipn. reflexivity.
  - rewrite Hfd', length_app. simpl.
    rewrite <- (firstn_skipn (data_index this) (filesData w)) at 3.
    rewrite length_app. lia.
  - unfold result. rewrite Hrun. reflexivity.
  - unfold w', exec. rewrite Hrun. reflexivity.
  - unfold w', exec. rewrite Hrun. reflexivity.
Qed.

(** *** Clearing *)

(** X8.  [clearAllFiles] never throws and, from any state, also one with
    [undefined] in the array, leaves an empty array and an empty list, the
    merge button disabled, the clear button and the success message hidden,
    the file input reset and the counters at zero; it logs nothing. *)
Theorem clearAllFiles_resets_page (w : World) :
  let w' := exec clearAllFiles w in
  result clearAllFiles w = Ok tt /\
  filesData w' = [] /\
  fileListElement w' = [] /\
  mergeBtn_disabled w' = true /\
  clearBtn_hidden w' = true /\
  successMessage_hidden w' = true /\
  fileInput_value w' = "" /\
  fileCountSpan w' = "0 PDFs selected" /\
  totalSizeSpan w' = ("Total size: " ++ formatSize 0)%string /\
  log w' = log w.
Proof.
  intro w'.
  assert (Hrun : clearAllFiles w =
    (Ok tt,
     set_successMessage_hidden true
       (set_fileInput_value ""
          (snd (updateUI (set_filesData [] w)))))).
  { unfold Script.clearAllFiles. unfold bind at 1, modify at 1.
    unfold bind at 1. rewrite updateUI_run by reflexivity. reflexivity. }
  unfold w', exec, result. rewrite Hrun.
  rewrite updateUI_run by reflexivity.
  repeat split.
Qed.

Lemma removeFile_with_undefined_frames (id0 : string) (w : World) :
  forallb defined (filesData w) = false ->
  removeFile id0 w = (Throw (TypeError_undefined "id"), w).
Proof.
  intro Hdef. unfold Script.removeFile. unfold bind at 1, get at 1.
  unfold bind at 1. rewrite removeFile_filter, Hdef. reflexivity.
Qed.

Lemma mergePDFs_below_two_frames (w : World) :
  List.length (filesData w) < 2 -> mergePDFs w = (Ok tt, w).
Proof.
  intro H. unfold Script.mergePDFs, bind, get.
  apply Nat.ltb_lt in H. rewrite H. reflexivity.
Qed.

(** *** The page follows the array *)

Lemma defined_as_entries (fd : list Slot) :
  forallb defined fd = true -> fd = map Some (entries fd).
Proof.
  induction fd as [| [e |] fd IH]; simpl; intro H.
  - reflexivity.
  - f_equal. apply IH. exact H.
  - discriminate.
Qed.

Lemma updateUI_shows (w : World) :
  forallb defined (filesData w) = true -> page_shows_array (exec updateUI w).
Proof.
  intro Hdef.
  assert (Hw' : exec updateUI w = snd (updateUI w)) by reflexivity.
  rewrite updateUI_run in Hw' by exact Hdef. cbn [snd] in Hw'.
  pose proof (defined_as_entries _ Hdef) as Hfd.
  destruct (rendered_entries (nextEl w) 0 (entries (filesData w)))
    as (Hid & Hindex & _).
  rewrite <- Hfd in Hid, Hindex.
  assert (Hlen : List.length (entries (filesData w)) = List.length (filesData w)).
  { rewrite Hfd at 2. symmetry. apply length_map. }
  unfold page_shows_array. rewrite Hw'.
  change (filesData _) with (filesData w).
  change (fileListElement _) with (rendered (nextEl w) 0 (filesData w)).
  repeat split.
  - rewrite Hindex, Hlen. reflexivity.
  - exact Hid.
Qed.

Lemma mergePDFs_enables (w : World) :
  2 <= List.length (filesData w) ->
  mergeBtn_disabled (exec mergePDFs w) = false.
Proof.
  intro Hlen. unfold exec, Script.mergePDFs. unfold bind at 1, get at 1.
  rewrite (proj2 (Nat.ltb_ge _ _) Hlen).
  unfold bind at 1, get at 1. unfold bind at 1, modify at 1.
  unfold bind at 1, modify at 1. unfold try_finally.
  match goal with
  | |- context [try_catch ?body ?h ?W] => destruct (try_catch body h W)
  end.
  reflexivity.
Qed.

Lemma mergePDFs_fileListElement : frames fileListElement mergePDFs.
Proof.
  unfold Script.mergePDFs, Script.mergeOne, Script.downloadPDF, emit. frame.
Qed.

Lemma mergePDFs_clearBtn : frames clearBtn_hidden mergePDFs.
Proof.
  unfold Script.mergePDFs, Script.mergeOne, Script.downloadPDF, emit. frame.
Qed.

Lemma shows_step (ev : Script.Event) (w : World) :
  (forallb defined (filesData w) = true -> page_shows_array w) ->
  forallb defined (filesData (exec (handler ev) w)) = true ->
  page_shows_array (exec (handler ev) w).
Proof.
  intros Hinv.
  destruct ev as [fileList | id0 | item | this | |]; unfold Script.handler.
  - (* files dropped or chosen *)
    unfold exec.
    destruct (handleFiles_cases fileList) as [[Hnone Hsome] | H].
    + rewrite handleFiles_alert by assumption. exact Hinv.
    + rewrite handleFiles_adds by assumption. intro Hdef.
      apply updateUI_shows. unfold exec in Hdef.
      rewrite updateUI_filesData in Hdef. exact Hdef.
  - (* remove button *)
    destruct (forallb defined (filesData w)) eqn:Hdef.
    + assert (Hrun : removeFile id0 w =
                updateUI (set_filesData (filter (keeps id0) (filesData w)) w)).
      { unfold Script.removeFile. unfold bind at 1, get at 1.
        unfold bind at 1. rewrite removeFile_filter, Hdef. reflexivity. }
      unfold exec. rewrite Hrun. intro Hdef'. apply updateUI_shows.
      rewrite updateUI_filesData in Hdef'. exact Hdef'.
    + unfold exec. rewrite removeFile_with_undefined_frames by exact Hdef.
      cbn [snd]. rewrite Hdef. discriminate.
  - (* drag start *)
    exact Hinv.
  - (* drop on an item *)
    destruct (dragSrcEl w) as [src |] eqn:Hsrc.
    + destruct (Nat.eq_dec (el src) (el this)) as [Heq | Hne].
      * assert (Hrun : onDrop this w = (Ok tt, w)).
        { unfold Script.onDrop. unfold bind at 1, get at 1.
          rewrite Hsrc. cbn [Script.differs].
          apply Nat.eqb_eq in Heq. rewrite Heq. reflexivity. }
        unfold exec. rewrite Hrun. exact Hinv.
      * unfold exec. rewrite (@onDrop_run src this w Hsrc Hne).
        intro Hdef'. apply updateUI_shows.
        rewrite updateUI_filesData in Hdef'. exact Hdef'.
    + assert (Hrun : onDrop this w = (Throw (TypeError_null "getAttribute"), w)).
      { unfold Script.onDrop. unfold bind at 1, get at 1.
        rewrite Hsrc. reflexivity. }
      unfold exec. rewrite Hrun. exact Hinv.
  - (* clear *)
    intros _.
    assert (Hrun : exec clearAllFiles w =
      set_successMessage_hidden true
        (set_fileInput_value "" (exec updateUI (set_filesData [] w)))).
    { unfold exec, Script.clearAllFiles. unfold bind at 1, modify at 1.
      unfold bind at 1. rewrite updateUI_run by reflexivity. reflexivity. }
    rewrite Hrun.
    exact (updateUI_shows (set_filesData [] w) eq_refl).
  - (* merge *)
    destruct (Nat.lt_ge_cases (List.length (filesData w)) 2) as [Hlt | Hge].
    + unfold exec. rewrite mergePDFs_below_two_frames by exact Hlt. exact Hinv.
    + intro Hdef. unfold exec in Hdef. rewrite mergePDFs_filesData in Hdef.
      destruct (Hinv Hdef) as (_ & Hclear & Hindex & Hid).
      unfold page_shows_array, exec.
      rewrite mergePDFs_filesData, mergePDFs_fileListElement,
        mergePDFs_clearBtn.
      repeat split; try assumption.
      pose proof (mergePDFs_enables w Hge) as Henabled.
      unfold exec in Henabled. rewrite Henabled.
      symmetry. apply Nat.ltb_ge. exact Hge.
Qed.

(** X9.  Starting from the page as it is loaded (an empty array, an empty list,
    the merge button disabled, the clear button hidden), after any sequence
    of events the page shows the array whenever the array holds no
    [undefined]: one item per entry with its index and id, the merge button
    enabled exactly from two entries on, the clear button shown exactly
    when there is an entry. *)
Theorem page_follows_array (evs : list Script.Event) (w0 : World) :
  filesData w0 = [] ->
  fileListElement w0 = [] ->
  mergeBtn_disabled w0 = true ->
  clearBtn_hidden w0 = true ->
  forallb defined (filesData (run evs w0)) = true ->
  page_shows_array (run evs w0).
Proof.
  intros Hfd Hitems Hmerge Hclear.
  assert (Hstart : forallb defined (filesData w0) = true ->
                   page_shows_array w0).
  { intros _. unfold page_shows_array.
    rewrite Hfd, Hitems, Hmerge, Hclear. repeat split. }
  clear Hfd Hitems Hmerge Hclear. revert w0 Hstart.
  induction evs as [| ev evs IH]; intros w0 Hstart; simpl.
  - exact Hstart.
  - apply IH. apply shows_step. exact Hstart.
Qed.

(** X10.  Every handler keeps an array of entries an array of entries, except a
    drop whose dragged element carries an index past the end of the
    array. *)
Theorem handlers_keep_entries_only (ev : Script.Event) (w : World) :
  forallb defined (filesData w) = true ->
  (forall this src,
     ev = Script.Drop this -> dragSrcEl w = Some src ->
     data_index src < List.length (filesData w)) ->
  forallb defined (filesData (exec (handler ev) w)) = true.
Proof.
  intros Hdef Hdrop.
  destruct ev as [fileList | id0 | item | this | |]; unfold Script.handler.
  - rewrite handleFiles_filesData, forallb_app, Hdef. apply defined_entries.
  - rewrite removeFile_filesData, Hdef.
    rewrite forallb_forall in *. intros x Hx.
    apply filter_In in Hx. apply Hdef. tauto.
  - exact Hdef.
  - rewrite onDrop_filesData.
    destruct (dragSrcEl w) as [src |] eqn:Hsrc; [| exact Hdef].
    destruct (el src =? el this)%nat; [exact Hdef |].
    specialize (Hdrop this src eq_refl eq_refl).
    rewrite forallb_forall in *. intros x Hx. apply Hdef.
    eapply Permutation_in; [symmetry; apply moveEntry_in_range |];
      eassumption.
  - rewrite clearAllFiles_filesData. reflexivity.
  - unfold exec. rewrite mergePDFs_filesData. exact Hdef.
Qed.

(** *** How a merge ends *)
(** As [same_world], for logs that are built in several layers. *)
Ltac same_world_layers :=
  match goal with
  | w : World |- (_, _) = (_, _) =>
      apply f_equal2; [reflexivity |];
      destruct w; assign_fields;
      repeat (rewrite <- ?app_assoc; simpl);
      rewrite ?app_nil_r; reflexivity
  end.


Lemma mergeCalls_no_signal (PDFLib : PdfLibApi Page) (data : Slot) :
  existsb is_signal (mergeCalls PDFLib data) = false.
Proof.
  unfold mergeCalls. destruct data as [e |]; simpl; auto.
  destruct (file_arrayBuffer (file e)); simpl; auto.
  destruct (PDFDocument_load PDFLib b); reflexivity.
Qed.

(** The merge loop on any array: it logs calls only. *)
Lemma merge_loop_quiet (PDFLib : PdfLibApi Page) (fd : list Slot) :
  forall mergedPdf w,
  exists r es,
    for_of_acc fd (Script.mergeOne PDFLib) mergedPdf w = (r, say es w) /\
    existsb is_download es = false /\ existsb is_signal es = false.
Proof.
  induction fd as [| data fd IH]; intros mergedPdf w.
  - exists (Ok mergedPdf), []. rewrite say_nil. auto.
  - cbn [for_of_acc]. unfold bind at 1. rewrite mergeOne_run.
    destruct (pagesOf PDFLib data) as [err | pdf].
    + exists (Throw err), (mergeCalls PDFLib data).
      split; [reflexivity |].
      split; [apply mergeCalls_no_download | apply mergeCalls_no_signal].
    + destruct (IH (mergedPdf ++ pdf) (say (mergeCalls PDFLib data) w))
        as (r & es & Hrun & Hd & Hs).
      exists r, (mergeCalls PDFLib data ++ es).
      rewrite Hrun, say_say, !existsb_app, Hd, Hs.
      rewrite mergeCalls_no_download, mergeCalls_no_signal. auto.
Qed.

(** A merge of two entries or more ends in one of two states. *)
Lemma mergePDFs_outcomes (w : World) :
  2 <= List.length (filesData w) ->
  exists es,
    existsb is_download es = false /\ existsb is_signal es = false /\
    ((exists pdfBytes,
        mergePDFs w =
        (Ok tt,
         set_mergeBtn_disabled false
           (set_successMessage_hidden false
              (say (es ++ [Download pdfBytes "merged-document.pdf"]) w)))) \/
     (exists cause,
        mergePDFs w =
        (Ok tt,
         set_mergeBtn_disabled false
           (say (es ++
                 [ConsoleError "Merge failed:" cause;
                  Alert ("An error occurred while merging PDFs: " ++ cause)%string])
              w)))).
Proof.
  intro Hlen. remember (mergePDFs w) as outcome eqn:Hout.
  unfold Script.mergePDFs in Hout. unfold bind at 1, get at 1 in Hout.
  rewrite (proj2 (Nat.ltb_ge _ _) Hlen) in Hout.
  unfold try_finally, try_catch, Script.downloadPDF in Hout.
  destruct window_PDFLib as [PDFLib |].
  - unfold bind, get, modify, emit in Hout. simpl in Hout.
    match type of Hout with
    | context [for_of_acc ?fd _ ?acc ?W] =>
        destruct (merge_loop_quiet PDFLib fd acc W)
          as (r & loop & Hrun & Hd & Hs)
    end.
    rewrite Hrun in Hout.
    destruct r as [mergedPdf | err].
    + destruct (PDFDocument_save PDFLib mergedPdf) as [err | pdfBytes];
        simpl in Hout.
      * exists (Call_PDFDocument_create :: loop ++ [Call_save]).
        cbn [existsb is_download is_signal orb].
        rewrite !existsb_app, Hd, Hs.
        split; [reflexivity |]. split; [reflexivity |].
        right. exists err. rewrite Hout. same_world_layers.
      * exists (Call_PDFDocument_create :: loop ++ [Call_save]).
        cbn [existsb is_download is_signal orb].
        rewrite !existsb_app, Hd, Hs.
        split; [reflexivity |]. split; [reflexivity |].
        left. exists pdfBytes. rewrite Hout. same_world_layers.
    + exists (Call_PDFDocument_create :: loop).
      cbn [existsb is_download is_signal orb]. rewrite Hd, Hs.
      split; [reflexivity |]. split; [reflexivity |].
      right. exists err. simpl in Hout. rewrite Hout. same_world_layers.
  - exists []. split; [reflexivity |]. split; [reflexivity |].
    right.
    exists "PDF-LIB library not loaded. Please check your internet connection.".
    unfold bind, get, modify, emit, throw in Hout. simpl in Hout.
    rewrite Hout. same_world_layers.
Qed.

Lemma filter_none {A} (p : A -> bool) (l : list A) :
  existsb p l = false -> filter p l = [].
Proof.
  induction l as [| x l IH]; simpl; intro H; auto.
  apply orb_false_elim in H. destruct H as [Hx Hl].
  rewrite Hx. auto.
Qed.

(** X11.  A merge of two entries or more never throws and always gives the
    button its label back and enables it.  It ends in exactly one of two
    ways: one download of "merged-document.pdf", the success message shown
    and no error reported; or no download, one [console.error] and one
    [alert] with the message of the error, and the success message left as
    it was. *)
Theorem mergePDFs_downloads_or_alerts (w : World) :
  2 <= List.length (filesData w) ->
  let w' := exec mergePDFs w in
  let es := effects mergePDFs w in
  result mergePDFs w = Ok tt /\
  mergeBtn_innerText w' = mergeBtn_innerText w /\
  mergeBtn_disabled w' = false /\
  ((exists pdfBytes,
      filter is_download es = [Download pdfBytes "merged-document.pdf"] /\
      filter is_signal es = [] /\
      successMessage_hidden w' = false) \/
   (exists cause,
      filter is_download es = [] /\
      filter is_signal es =
        [ConsoleError "Merge failed:" cause;
         Alert ("An error occurred while merging PDFs: " ++ cause)%string] /\
      successMessage_hidden w' = successMessage_hidden w)).
Proof.
  intros Hlen w' es.
  destruct (mergePDFs_outcomes w Hlen)
    as (calls & Hd & Hs & [[pdfBytes Hrun] | [cause Hrun]]).
  - assert (Hes : es = calls ++ [Download pdfBytes "merged-document.pdf"]).
    { unfold es.
      eapply effects_say with
        (f := fun v => set_mergeBtn_disabled false
                         (set_successMessage_hidden false v)).
      - reflexivity.
      - unfold exec. rewrite Hrun. reflexivity. }
    unfold w', exec, result. rewrite Hrun, Hes.
    repeat split. left. exists pdfBytes.
    rewrite !filter_app, !(filter_none _ _ Hd), !(filter_none _ _ Hs).
    repeat split.
  - assert (Hes : es = calls ++
              [ConsoleError "Merge failed:" cause;
               Alert ("An error occurred while merging PDFs: " ++ cause)%string]).
    { unfold es.
      eapply effects_say with (f := set_mergeBtn_disabled false).
      - reflexivity.
      - unfold exec. rewrite Hrun. reflexivity. }
    unfold w', exec, result. rewrite Hrun, Hes.
    repeat split. right. exists cause.
    rewrite !filter_app, !(filter_none _ _ Hd), !(filter_none _ _ Hs).
    repeat split.
Qed.

(** X12.  When pdf-lib did not load, a merge reads no entry and calls nothing:
    it reports the missing library by one [console.error] and one [alert],
    downloads nothing and leaves the success message as it was. *)
Theorem mergePDFs_without_library (w : World) :
  2 <= List.length (filesData w) ->
  let merge := Script.mergePDFs (@None (PdfLibApi Page)) in
  result merge w = Ok tt /\
  effects merge w =
    [ConsoleError "Merge failed:"
       "PDF-LIB library not loaded. Please check your internet connection.";
     Alert "An error occurred while merging PDFs: PDF-LIB library not loaded. Please check your internet connection."] /\
  successMessage_hidden (exec merge w) = successMessage_hidden w.
Proof.
  intros Hlen merge.
  assert (Hrun : merge w =
    (Ok tt,
     set_mergeBtn_disabled false
       (say [ConsoleError "Merge failed:"
               "PDF-LIB library not loaded. Please check your internet connection.";
             Alert "An error occurred while merging PDFs: PDF-LIB library not loaded. Please check your internet connection."]
          w))).
  { unfold merge, Script.mergePDFs. unfold bind at 1, get at 1.
    rewrite (proj2 (Nat.ltb_ge _ _) Hlen).
    unfold try_finally, try_catch, bind, get, modify, emit, throw. simpl.
    same_world_layers. }
  repeat split.
  - unfold result. rewrite Hrun. reflexivity.
  - eapply effects_say with (f := set_mergeBtn_disabled false).
    + reflexivity.
    + unfold exec. rewrite Hrun. reflexivity.
  - unfold exec. rewrite Hrun. reflexivity.
Qed.

(** X13.  When every entry loads and [save] fails, the merge has read every
    entry, in order, and then reports the error of [save]: nothing is
    downloaded and the success message is left as it was. *)
Theorem mergePDFs_save_fails (PDFLib : PdfLibApi Page) (w : World)
    (docs : list (list Page)) (cause : Error) :
  2 <= List.length (filesData w) ->
  Forall2 (fun data pdf => pagesOf PDFLib data = inr pdf) (filesData w) docs ->
  PDFDocument_save PDFLib (List.concat docs) = inl cause ->
  let merge := Script.mergePDFs (Some PDFLib) in
  result merge w = Ok tt /\
  effects merge w =
    Call_PDFDocument_create ::
    flat_map (mergeCalls PDFLib) (filesData w) ++
    [Call_save; ConsoleError "Merge failed:" cause;
     Alert ("An error occurred while merging PDFs: " ++ cause)%string] /\
  successMessage_hidden (exec merge w) = successMessage_hidden w.
Proof.
  intros Hlen Hdocs Hsave merge.
  assert (Hrun : merge w =
    (Ok tt,
     set_mergeBtn_disabled false
       (say (Call_PDFDocument_create ::
             flat_map (mergeCalls PDFLib) (filesData w) ++
             [Call_save; ConsoleError "Merge failed:" cause;
              Alert ("An error occurred while merging PDFs: " ++ cause)%string])
          w))).
  { unfold merge, Script.mergePDFs. unfold bind at 1, get at 1.
    rewrite (proj2 (Nat.ltb_ge _ _) Hlen).
    unfold try_finally, try_catch, Script.downloadPDF.
    unfold bind, get, modify, emit. simpl.
    rewrite (@merge_loop_ok Page PDFLib _ _ Hdocs). simpl. rewrite Hsave. simpl.
    same_world_layers. }
  repeat split.
  - unfold result. rewrite Hrun. reflexivity.
  - eapply effects_say with (f := set_mergeBtn_disabled false).
    + reflexivity.
    + unfold exec. rewrite Hrun. reflexivity.
  - unfold exec. rewrite Hrun. reflexivity.
Qed.

(** *** Where downloads come from *)

Lemma addCalls_no_download (f : File) :
  filter is_download (addCalls f) = [].
Proof.
  unfold Reading.addCalls.
  destruct (file_arrayBuffer f) as [err | buf]; [reflexivity |].
  destruct (pdfjsLib_getDocument buf) as [err | pdfDoc]; [reflexivity |].
  destruct (renderFirstPage pdfDoc); reflexivity.
Qed.

Lemma removeFile_log (id0 : string) : frames log (removeFile id0).
Proof.
  unfold Script.removeFile, Script.updateUI, Script.renderFileList,
    Script.updateStats, Script.updateButtons. frame.
Qed.

Lemma onDrop_log (this : Item) : frames log (onDrop this).
Proof.
  unfold Script.onDrop, Script.updateUI, Script.renderFileList,
    Script.updateStats, Script.updateButtons. frame.
Qed.

Lemma clearAllFiles_log : frames log clearAllFiles.
Proof.
  unfold Script.clearAllFiles, Script.updateUI, Script.renderFileList,
    Script.updateStats, Script.updateButtons. frame.
Qed.

(** What one handler adds to the log holds a download only for a click on
    the merge button, and then at most one. *)
Lemma handler_log (ev : Script.Event) (w : World) :
  exists es,
    log (exec (handler ev) w) = log w ++ es /\
    List.length (filter is_download es) <= if is_mergeClick ev then 1 else 0.
Proof.
  destruct ev as [fileList | id0 | item | this | |];
    unfold Script.handler; cbn [is_mergeClick].
  - destruct (handleFiles_cases fileList) as [[Hnone Hsome] | H].
    + exists [Alert Script.MAX_FILES_MSG]. unfold exec.
      rewrite handleFiles_alert by assumption. split; [reflexivity | simpl; lia].
    + exists (flat_map addCalls (filter Script.isPdf fileList)). unfold exec.
      rewrite handleFiles_adds by assumption. rewrite updateUI_log.
      split; [reflexivity |]. clear H.
      induction (filter Script.isPdf fileList) as [| f l IH];
        cbn [flat_map]; [simpl; lia |].
      rewrite filter_app, addCalls_no_download. exact IH.
  - exists []. rewrite app_nil_r. split; [apply removeFile_log | simpl; lia].
  - exists []. rewrite app_nil_r. split; [reflexivity | simpl; lia].
  - exists []. rewrite app_nil_r. split; [apply onDrop_log | simpl; lia].
  - exists []. rewrite app_nil_r. split; [apply clearAllFiles_log | simpl; lia].
  - destruct (Nat.lt_ge_cases (List.length (filesData w)) 2) as [Hlt | Hge].
    + exists []. unfold exec.
      rewrite mergePDFs_below_two_frames by exact Hlt.
      rewrite app_nil_r. split; [reflexivity | simpl; lia].
    + destruct (mergePDFs_outcomes w Hge)
        as (calls & Hd & Hs & [[pdfBytes Hrun] | [cause Hrun]]).
      * exists (calls ++ [Download pdfBytes "merged-document.pdf"]).
        unfold exec. rewrite Hrun. split; [reflexivity |].
        rewrite filter_app, (filter_none _ _ Hd). simpl. lia.
      * exists (calls ++
                [ConsoleError "Merge failed:" cause;
                 Alert ("An error occurred while merging PDFs: " ++ cause)%string]).
        unfold exec. rewrite Hrun. split; [reflexivity |].
        rewrite filter_app, (filter_none _ _ Hd). simpl. lia.
Qed.

(** X14.  Only a click on the merge button downloads anything: over any sequence
    of events, the log gains at most one download per click on the merge
    button. *)
Theorem downloads_only_from_merge (evs : list Script.Event) (w : World) :
  List.length (filter is_download (log (run evs w))) <=
  List.length (filter is_download (log w)) +
  List.length (filter is_mergeClick evs).
Proof.
  revert w. induction evs as [| ev evs IH]; intro w; simpl.
  - lia.
  - specialize (IH (exec (handler ev) w)).
    destruct (handler_log ev w) as (es & Hlog & Hes).
    rewrite Hlog, filter_app, length_app in IH.
    destruct (is_mergeClick ev); simpl; lia.
Qed.

(** *** What adding files reports *)

Lemma addCalls_alerts (f : File) :
  filter is_alert (addCalls f) =
  if decodes f then []
  else [Alert ("Failed to load " ++ file_name f ++
               ". It might be corrupted.")%string].
Proof.
  unfold Reading.addCalls, Reading.decodes, Reading.decode.
  destruct (file_arrayBuffer f) as [err | buf]; [reflexivity |].
  destruct (pdfjsLib_getDocument buf) as [err | pdfDoc]; [reflexivity |].
  destruct (renderFirstPage pdfDoc); reflexivity.
Qed.

(** X15.  In a batch that holds a PDF, the alerts are exactly one per PDF that
    fails to read or decode, in the order of the batch, each naming its
    file. *)
Theorem corrupt_pdfs_alerted_by_name (fileList : list File) (w : World) :
  filter Script.isPdf fileList <> [] ->
  filter is_alert (effects (handleFiles fileList) w) =
  map (fun f => Alert ("Failed to load " ++ file_name f ++
                       ". It might be corrupted.")%string)
    (filter (fun f => negb (decodes f)) (filter Script.isPdf fileList)).
Proof.
  intro Hpdf. rewrite handleFiles_effects by (left; exact Hpdf). clear Hpdf.
  induction (filter Script.isPdf fileList) as [| f l IH]; cbn [flat_map filter].
  - reflexivity.
  - rewrite filter_app, addCalls_alerts, IH.
    destruct (decodes f); reflexivity.
Qed.

(** X16.  A PDF that decodes but whose first page fails to render is added all
    the same, with an empty thumbnail: the failure is logged by
    [console.error] and nothing is alerted. *)
Theorem thumbnail_failure_keeps_file (f : File) (w : World) (buf : Bytes)
    (pdfDoc : PdfJsDoc) (err : Error) :
  file_arrayBuffer f = inr buf ->
  pdfjsLib_getDocument buf = inr pdfDoc ->
  renderFirstPage pdfDoc = inl err ->
  result (addFile f) w = Ok tt /\
  filesData (exec (addFile f) w) =
    filesData w ++
    [Some (mkEntry (newId (calls w)) f (file_name f)
             (formatSize (file_size f)) (file_size f) (numPages pdfDoc)
             "" buf)] /\
  effects (addFile f) w =
    [Call_arrayBuffer f; Call_getDocument buf;
     ConsoleError "Error generating thumbnail" err].
Proof.
  intros Hbuf Hdoc Hthumb.
  assert (Hentry : Reading.entryFor Date_now Math_random_toString36
                     pdfjsLib_getDocument formatSize (calls w) f =
    [mkEntry (newId (calls w)) f (file_name f) (formatSize (file_size f))
       (file_size f) (numPages pdfDoc) "" buf]).
  { unfold Reading.entryFor, Reading.decode.
    rewrite Hbuf, Hdoc, Hthumb. reflexivity. }
  assert (Hcalls : addCalls f =
    [Call_arrayBuffer f; Call_getDocument buf;
     ConsoleError "Error generating thumbnail" err]).
  { unfold Reading.addCalls. rewrite Hbuf, Hdoc, Hthumb. reflexivity. }
  repeat split.
  - unfold result. rewrite addFile_run. reflexivity.
  - unfold exec. rewrite addFile_run, Hentry. reflexivity.
  - apply effects_of_log. unfold exec. rewrite addFile_run, Hcalls.
    reflexivity.
Qed.

(** *** Ids *)

Lemma string_append_length (s t : string) :
  String.length (s ++ t) = String.length s + String.length t.
Proof. induction s as [| c s IH]; simpl; auto. Qed.

Lemma string_append_inj (a b x y : string) :
  String.length a = String.length b ->
  (a ++ x = b ++ y)%string -> a = b /\ x = y.
Proof.
  revert b. induction a as [| c a IH]; intros [| c' b] Hlen H;
    simpl in *; try discriminate.
  - auto.
  - injection H as -> H. injection Hlen as Hlen.
    destruct (IH b Hlen H) as [-> ->]. auto.
Qed.

Lemma string_of_N_inj (m n : N) : string_of_N m = string_of_N n -> m = n.
Proof.
  unfold string_of_N. intro H.
  assert (Hu : Some (N.to_uint m) = Some (N.to_uint n)).
  { rewrite <- !NilEmpty.usu, H. reflexivity. }
  injection Hu as Hu. apply Unsigned.to_uint_inj. exact Hu.
Qed.

Lemma substr_length (start len : nat) (s : string) :
  String.length (substr start len s) <= len.
Proof.
  unfold substr. revert start len.
  induction s as [| c s IH]; intros [| start] [| len]; simpl; try lia.
  - specialize (IH 0 len). lia.
  - apply (IH start 0).
  - apply (IH start (S len)).
Qed.

Lemma substr_of_prefix (a b : string) :
  substr 0 (String.length a) (a ++ b) = a.
Proof.
  unfold substr. induction a as [| c a IH]; simpl.
  - destruct b; reflexivity.
  - rewrite IH. reflexivity.
Qed.

Lemma substr_past_prefix (a b : string) (len : nat) :
  substr (String.length a) len (a ++ b) = substr 0 len b.
Proof. unfold substr. induction a as [| c a IH]; simpl; auto. Qed.

Lemma substr_whole (s : string) (len : nat) :
  String.length s <= len -> substr 0 len s = s.
Proof.
  unfold substr. revert len.
  induction s as [| c s IH]; intros [| len] H; simpl in *;
    try reflexivity; try lia.
  rewrite IH by lia. reflexivity.
Qed.

(** X17.  An id is the decimal clock reading followed by at most nine
    characters of the random string: its first characters are the digits of
    [Date.now()], which can be read back from it, and the rest is the
    suffix.  Two ids whose clock readings have the same number of digits
    are equal only if the clock readings are equal and the random suffixes
    are equal. *)
Theorem newId_reads_clock_and_suffix (m n : nat) :
  let clock := string_of_N (Date_now m) in
  let suffix := substr 2 9 (Math_random_toString36 m) in
  newId m = (clock ++ suffix)%string /\
  substr 0 (String.length clock) (newId m) = clock /\
  option_map N.of_uint
    (NilEmpty.uint_of_string (substr 0 (String.length clock) (newId m))) =
    Some (Date_now m) /\
  substr (String.length clock) 9 (newId m) = suffix /\
  String.length suffix <= 9 /\
  String.length (newId m) <= String.length clock + 9 /\
  (String.length clock = String.length (string_of_N (Date_now n)) ->
   newId m = newId n ->
   Date_now m = Date_now n /\
   suffix = substr 2 9 (Math_random_toString36 n)).
Proof.
  intros clock suffix.
  assert (Hid : newId m = (clock ++ suffix)%string) by reflexivity.
  assert (Hshort : String.length suffix <= 9) by apply substr_length.
  assert (Hclock : substr 0 (String.length clock) (newId m) = clock).
  { rewrite Hid. apply substr_of_prefix. }
  split; [exact Hid |].
  split; [exact Hclock |].
  split.
  { rewrite Hclock. unfold clock, string_of_N.
    rewrite NilEmpty.usu. simpl. rewrite Unsigned.of_to. reflexivity. }
  split.
  { rewrite Hid, substr_past_prefix. apply substr_whole. exact Hshort. }
  split; [exact Hshort |].
  split.
  { rewrite Hid, string_append_length. lia. }
  intros Hlen Heq. unfold Script.newId in Heq.
  destruct (string_append_inj _ _ _ _ Hlen Heq) as [Hc Hs].
  split; [apply string_of_N_inj; exact Hc | exact Hs].
Qed.

End MoreScriptProperties.

(** * The script on the concrete page *)

Section OnTheDemoPage.

Import Demo.

Local Abbreviation mergePDFs := (Script.mergePDFs (Some PDFLib)).
Local Abbreviation handleFiles :=
  (Script.handleFiles Date_now Math_random_toString36 getDocument formatSize).
Local Abbreviation removeFile := (Script.removeFile formatSize).
Local Abbreviation onDrop := (Script.onDrop formatSize).

Lemma string_length_append (s t : string) :
  String.length (s ++ t) = String.length s + String.length t.
Proof. induction s as [| c s IH]; simpl; auto. Qed.

Lemma string_append_inj_r (t s1 s2 : string) :
  (s1 ++ t = s2 ++ t)%string -> s1 = s2.
Proof.
  revert s2. induction s1 as [| c s1 IH]; intros [| c' s2] H; simpl in H.
  - reflexivity.
  - apply (f_equal String.length) in H. simpl in H.
    rewrite string_length_append in H. lia.
  - apply (f_equal String.length) in H. simpl in H.
    rewrite string_length_append in H. lia.
  - injection H as -> H. f_equal. apply IH. exact H.
Qed.

(** With a clock that advances between calls, no id is generated twice. *)
Lemma advancing_clock_ids_differ :
  Injective (Script.newId Date_now Math_random_toString36).
Proof.
  intros m n H. unfold Script.newId, Math_random_toString36 in H.
  apply string_append_inj_r in H. unfold string_of_N in H.
  assert (Hu : Some (N.to_uint (Date_now m)) = Some (N.to_uint (Date_now n))).
  { rewrite <- !NilEmpty.usu, H. reflexivity. }
  injection Hu as Hu. apply Unsigned.to_uint_inj in Hu.
  unfold Date_now in Hu. lia.
Qed.

(** C1 on a.pdf (2 pages) then b.pdf (3 pages): the download has the five
    pages, those of a.pdf first. *)
Lemma merge_a_then_b :
  let w := with_files [Some (entry "1" a_pdf); Some (entry "2" b_pdf)] in
  result mergePDFs w = Ok tt /\
  effects mergePDFs w =
    Call_PDFDocument_create ::
    flat_map (mergeCalls PDFLib) (filesData w) ++
    [Call_save;
     Download [Byte.x01; Byte.x02; Byte.x03; Byte.x04; Byte.x05]
       "merged-document.pdf"] /\
  successMessage_hidden (exec mergePDFs w) = false /\
  (forall pagesA pagesB,
     [[Byte.x01; Byte.x02]; [Byte.x03; Byte.x04; Byte.x05]] = [pagesA; pagesB] ->
     PDFDocument_save PDFLib (pagesA ++ pagesB) =
     inr [Byte.x01; Byte.x02; Byte.x03; Byte.x04; Byte.x05]).
Proof.
  apply (@mergePDFs_concatenates_in_order Page PDFLib
           (with_files [Some (entry "1" a_pdf); Some (entry "2" b_pdf)])
           [[Byte.x01; Byte.x02]; [Byte.x03; Byte.x04; Byte.x05]]
           [Byte.x01; Byte.x02; Byte.x03; Byte.x04; Byte.x05]).
  - simpl. lia.
  - repeat constructor.
  - reflexivity.
Defined.

(** C2 on a session: three files added, one dragged to the front, one
    removed. *)
Lemma session_ids_differ :
  NoDup (ids (filesData
    (play [Script.Files [a_pdf; notes_txt; b_pdf; c_pdf];
           Script.DragStart (mkItem 2 "" 2); Script.Drop (mkItem 0 "" 0);
           Script.RemoveFile "17000000000004fzyo82mv"] page0))).
Proof.
  apply (@ids_unique_when_generated_ids_differ Page Date_now
           Math_random_toString36 getDocument formatSize (Some PDFLib)).
  - exact advancing_clock_ids_differ.
  - reflexivity.
Defined.

(** Uniqueness of ids is not unconditional (C2): when two calls of
    [addFile] read the same millisecond and get the same nine random
    characters, two files of one batch are pushed with the same id. *)
Lemma ids_can_collide :
  ~ (forall (Date_now : nat -> N) (Math_random_toString36 : nat -> string)
            (evs : list Script.Event) (w : World),
       filesData w = [] ->
       NoDup (ids (filesData
         (Script.run Date_now Math_random_toString36 getDocument formatSize
            (Some PDFLib) evs w)))).
Proof.
  intro H.
  specialize (H stopped_clock Math_random_toString36
                [Script.Files [a_pdf; b_pdf]] page0 eq_refl).
  vm_compute in H. inversion H as [| i l Hnotin Hrest]; subst.
  apply Hnotin. left. reflexivity.
Qed.

(** C3 on the freshly loaded page. *)
Lemma merge_on_empty_page : mergePDFs page0 = (Ok tt, page0).
Proof.
  refine (proj1 (@mergePDFs_below_two_returns Page (Some PDFLib) page0 _)).
  simpl. lia.
Defined.

(** No [InsufficientFiles] is signalled (C3): with no entry, [mergePDFs]
    neither throws nor alerts nor logs. *)
Lemma merge_below_two_signals_nothing :
  ~ (forall w : World,
       List.length (filesData w) < 2 -> signals mergePDFs w).
Proof.
  intro H. specialize (H page0). simpl in H.
  destruct H as [[e He] | He]; [lia | |]; vm_compute in He; discriminate.
Qed.

(** Not every file that is not a PDF is signalled (C4): a text file
    dropped together with a PDF is left out without alert, console message
    or exception. *)
Lemma non_pdf_dropped_silently :
  ~ (forall (fileList : list File) (w : World) (f : File),
       In f fileList -> Script.isPdf f = false ->
       signals (handleFiles fileList) w).
Proof.
  intro H.
  specialize (H [a_pdf; notes_txt] page0 notes_txt
                (or_intror (or_introl eq_refl)) eq_refl).
  destruct H as [[e He] | He]; vm_compute in He; discriminate.
Qed.

(** C5 on a.pdf, a file that pdf-lib cannot parse, then b.pdf. *)
Lemma merge_with_broken_file :
  let w := with_files [Some (entry "1" a_pdf); Some (entry "2" broken_pdf);
                       Some (entry "3" b_pdf)] in
  result mergePDFs w = Ok tt /\
  effects mergePDFs w =
    Call_PDFDocument_create ::
    flat_map (mergeCalls PDFLib) [Some (entry "1" a_pdf)] ++
    mergeCalls PDFLib (Some (entry "2" broken_pdf)) ++
    [ConsoleError "Merge failed:" "Failed to parse PDF document";
     Alert "An error occurred while merging PDFs: Failed to parse PDF document"] /\
  existsb is_download (effects mergePDFs w) = false /\
  successMessage_hidden (exec mergePDFs w) = successMessage_hidden w.
Proof.
  apply (@mergePDFs_failure_aborts Page PDFLib
           (with_files [Some (entry "1" a_pdf); Some (entry "2" broken_pdf);
                        Some (entry "3" b_pdf)])
           [Some (entry "1" a_pdf)] [[Byte.x01; Byte.x02]]
           (Some (entry "2" broken_pdf)) [Some (entry "3" b_pdf)]
           "Failed to parse PDF document").
  - reflexivity.
  - simpl. lia.
  - repeat constructor.
  - reflexivity.
Defined.

(** The error of a failed merge does not tell which entry failed (C5):
    two arrays that differ only in the id of the broken entry give the same
    [console.error] and the same [alert], so no reading of the signal
    recovers the id. *)
Lemma merge_error_omits_entry_id :
  ~ (exists idOf : list Effect -> string,
       forall (w : World) (before : list Slot) (docs : list (list Page))
              (e : FileEntry) (after : list Slot) (cause : Error),
         filesData w = before ++ Some e :: after ->
         2 <= List.length (filesData w) ->
         Forall2 (fun data pdf => pagesOf PDFLib data = inr pdf) before docs ->
         pagesOf PDFLib (Some e) = inl cause ->
         idOf (filter is_signal (effects mergePDFs w)) = id e).
Proof.
  intros [idOf H].
  assert (Hrun : forall i,
    idOf (filter is_signal
            (effects mergePDFs
               (with_files [Some (entry "1" a_pdf); Some (entry i broken_pdf)])))
    = i).
  { intro i.
    apply (H (with_files [Some (entry "1" a_pdf); Some (entry i broken_pdf)])
             [Some (entry "1" a_pdf)] [[Byte.x01; Byte.x02]]
             (entry i broken_pdf) [] "Failed to parse PDF document").
    - reflexivity.
    - simpl. lia.
    - repeat constructor.
    - reflexivity. }
  pose proof (Hrun "2") as H2. pose proof (Hrun "3") as H3.
  vm_compute in H2, H3. rewrite H2 in H3. discriminate.
Qed.

(** C6 on a text file and a PDF that does not decode. *)
Lemma rejected_batch_keeps_entries :
  let w := with_files [Some (entry "1" a_pdf)] in
  filesData (exec (handleFiles [notes_txt; broken_pdf]) w) = filesData w /\
  (forall X w0, In X [notes_txt; broken_pdf] -> Script.isPdf X = true ->
     filesData (exec (Script.addFile Date_now Math_random_toString36
                        getDocument formatSize X) w0) = filesData w0).
Proof.
  apply (@rejected_files_keep_filesData Date_now Math_random_toString36
           getDocument formatSize [notes_txt; broken_pdf]
           (with_files [Some (entry "1" a_pdf)])).
  intros f [<- | [<- | []]]; reflexivity.
Defined.

(** C8 on [A, B, C] with C dragged onto the first item. *)
Lemma drag_c_to_front :
  let w := set_dragSrcEl (Some (mkItem 12 "3" 2))
             (with_files [Some (entry "1" a_pdf); Some (entry "2" b_pdf);
                          Some (entry "3" c_pdf)]) in
  filesData (exec (onDrop (mkItem 10 "1" 0)) w) =
  [Some (entry "3" c_pdf); Some (entry "1" a_pdf); Some (entry "2" b_pdf)].
Proof.
  intro w.
  destruct (onDrop_permutes Demo.formatSize (mkItem 10 "1" 0) w)
    as (_ & _ & _ & Hmove).
  apply (Hmove (mkItem 12 "3" 2)); try reflexivity.
  simpl. discriminate.
Defined.

(** C9 on [A, B]: removing B, then B again. *)
Lemma remove_b_twice :
  let w := with_files [Some (entry "1" a_pdf); Some (entry "2" b_pdf)] in
  let w' := exec (removeFile "2") w in
  result (removeFile "2") w = Ok tt /\
  filesData w' =
    map Some (filter (fun e => negb (String.eqb (id e) "2"))
                [entry "1" a_pdf; entry "2" b_pdf]) /\
  Subseq (filesData w') (filesData w) /\
  (~ In "2" (ids (filesData w)) -> filesData w' = filesData w) /\
  result (removeFile "2") w' = Ok tt /\
  filesData (exec (removeFile "2") w') = filesData w'.
Proof.
  apply (@removeFile_idempotent_keeps_order Demo.formatSize "2"
           [entry "1" a_pdf; entry "2" b_pdf]
           (with_files [Some (entry "1" a_pdf); Some (entry "2" b_pdf)])).
  reflexivity.
Defined.

(** C4 on a text file alone: the alert, and nothing else. *)
Lemma text_file_alone_alerts :
  handleFiles [notes_txt] page0 =
  (Ok tt, say [Alert Script.MAX_FILES_MSG] (set_successMessage_hidden true page0)).
Proof.
  destruct (handleFiles_filters_non_pdf Date_now Math_random_toString36
              getDocument formatSize [notes_txt] page0) as (Halert & _).
  apply Halert; [reflexivity | discriminate].
Defined.

(** C10 on a batch of a.pdf, a text file, a PDF that does not decode and
    b.pdf: a.pdf then b.pdf are appended. *)
Lemma batch_keeps_its_order :
  map (option_map name)
    (filesData (exec (handleFiles [a_pdf; notes_txt; broken_pdf; b_pdf])
                  (with_files [Some (entry "1" c_pdf)]))) =
  [Some "c.pdf"; Some "a.pdf"; Some "b.pdf"].
Proof.
  destruct (handleFiles_appends_in_batch_order Date_now Math_random_toString36
              getDocument formatSize [a_pdf; notes_txt; broken_pdf; b_pdf]
              (with_files [Some (entry "1" c_pdf)])) as (Hfd & _).
  rewrite Hfd. reflexivity.
Defined.

(** A drop whose dragged element is left over from an earlier drag: the
    element still says index 2 while one entry is left, so [undefined] is
    spliced in, and the entry stays. *)
Example stale_drag_splices_undefined :
  map (option_map name)
    (filesData
       (play [Script.Files [a_pdf; b_pdf; c_pdf];
              Script.DragStart (mkItem 2 "17000000000024fzyo82mv" 2);
              Script.Drop (mkItem 0 "17000000000004fzyo82mv" 0);
              Script.RemoveFile "17000000000004fzyo82mv";
              Script.RemoveFile "17000000000014fzyo82mv";
              Script.Drop (mkItem 6 "17000000000024fzyo82mv" 0)] page0)) =
  [None; Some "c.pdf"].
Proof. reflexivity. Qed.

End OnTheDemoPage.

(** * More of the script on the concrete page *)

Section MoreOnTheDemoPage.

Import Demo.

Local Abbreviation updateUI := (Script.updateUI formatSize).
Local Abbreviation removeFile := (Script.removeFile formatSize).
Local Abbreviation onDrop := (Script.onDrop formatSize).
Local Abbreviation handleFiles :=
  (Script.handleFiles Date_now Math_random_toString36 getDocument formatSize).

Local Abbreviation abc :=
  [Some (entry "1" a_pdf); Some (entry "2" b_pdf); Some (entry "3" c_pdf)].

(** C dragged onto the first item of [A, B, C] is then the first element. *)
Lemma drag_c_lands_first :
  index
    (filesData
       (exec (onDrop (mkItem 10 "1" 0))
          (set_dragSrcEl (Some (mkItem 12 "3" 2)) (with_files abc)))) 0 =
  Some (entry "3" c_pdf).
Proof.
  refine (proj1 (proj2
    (@onDrop_moves_to_target formatSize (mkItem 12 "3" 2) (mkItem 10 "1" 0)
       (set_dragSrcEl (Some (mkItem 12 "3" 2)) (with_files abc)) _ _ _))).
  - reflexivity.
  - discriminate.
  - simpl. lia.
Defined.

(** A moved to the end of [A, B, C] and back. *)
Lemma move_a_there_and_back :
  Script.moveEntry 2 0 (Script.moveEntry 0 2 abc) = abc.
Proof.
  refine (proj1 (@moveEntry_back_and_forth 0 2 abc _ _)); simpl; lia.
Defined.

(** Three entries rendered. *)
Lemma three_entries_rendered :
  map data_id (fileListElement (exec updateUI (with_files abc))) =
  ["1"; "2"; "3"].
Proof.
  refine (proj1 (proj2
    (@updateUI_renders_entries formatSize
       [entry "1" a_pdf; entry "2" b_pdf; entry "3" c_pdf]
       (with_files abc) _))).
  reflexivity.
Defined.

(** Three entries of 2, 3 and 1 bytes counted. *)
Lemma three_entries_counted :
  totalSizeSpan (exec updateUI (with_files abc)) = "Total size: 6 B".
Proof.
  refine (proj1 (proj2
    (@updateUI_shows_stats_and_buttons formatSize
       [entry "1" a_pdf; entry "2" b_pdf; entry "3" c_pdf]
       (with_files abc) _))).
  reflexivity.
Defined.

(** Rendering [A, undefined, B]. *)
Lemma render_with_undefined :
  result updateUI
    (with_files [Some (entry "1" a_pdf); None; Some (entry "2" b_pdf)]) =
  Throw (TypeError_undefined "id").
Proof.
  refine (proj1
    (@updateUI_with_undefined_throws formatSize
       (with_files [Some (entry "1" a_pdf); None; Some (entry "2" b_pdf)]) _)).
  reflexivity.
Defined.

(** Removing from [A, undefined, B]. *)
Lemma remove_with_undefined :
  removeFile "1"
    (with_files [Some (entry "1" a_pdf); None; Some (entry "2" b_pdf)]) =
  (Throw (TypeError_undefined "id"),
   with_files [Some (entry "1" a_pdf); None; Some (entry "2" b_pdf)]).
Proof.
  apply (@removeFile_with_undefined_throws formatSize "1"
           (with_files [Some (entry "1" a_pdf); None; Some (entry "2" b_pdf)])).
  reflexivity.
Defined.

(** A dragged element that says index 2 dropped on the only item of [C]. *)
Lemma stale_index_two_on_one_entry :
  filesData
    (exec (onDrop (mkItem 6 "3" 0))
       (set_dragSrcEl (Some (mkItem 2 "3" 2))
          (with_files [Some (entry "3" c_pdf)]))) =
  [None; Some (entry "3" c_pdf)].
Proof.
  refine (proj1
    (@stale_drop_inserts_undefined formatSize (mkItem 2 "3" 2) (mkItem 6 "3" 0)
       (set_dragSrcEl (Some (mkItem 2 "3" 2))
          (with_files [Some (entry "3" c_pdf)])) _ _ _)).
  - reflexivity.
  - discriminate.
  - simpl. lia.
Defined.

(** The page after three files added, one dragged to the front and one
    removed. *)
Lemma session_page_follows_array :
  page_shows_array
    (play [Script.Files [a_pdf; b_pdf; c_pdf];
           Script.DragStart (mkItem 2 "17000000000024fzyo82mv" 2);
           Script.Drop (mkItem 0 "17000000000004fzyo82mv" 0);
           Script.RemoveFile "17000000000004fzyo82mv"] page0).
Proof.
  apply (@page_follows_array Page Date_now Math_random_toString36 getDocument
           formatSize (Some PDFLib)); reflexivity.
Defined.

(** A drop between two items of [A, B, C]. *)
Lemma drop_keeps_entries_only :
  forallb defined
    (filesData
       (exec (on (Script.Drop (mkItem 10 "1" 0)))
          (set_dragSrcEl (Some (mkItem 12 "3" 2)) (with_files abc)))) = true.
Proof.
  apply (@handlers_keep_entries_only Page Date_now Math_random_toString36
           getDocument formatSize (Some PDFLib)
           (Script.Drop (mkItem 10 "1" 0))
           (set_dragSrcEl (Some (mkItem 12 "3" 2)) (with_files abc))).
  - reflexivity.
  - intros this src _ Hsrc. injection Hsrc as <-. simpl. lia.
Defined.

(** A merge of a.pdf and a file that pdf-lib cannot parse enables the
    button again. *)
Lemma button_enabled_after_failed_merge :
  mergeBtn_disabled
    (exec (Script.mergePDFs (Some PDFLib))
       (with_files [Some (entry "1" a_pdf); Some (entry "2" broken_pdf)])) =
  false.
Proof.
  refine (proj1 (proj2 (proj2
    (@mergePDFs_downloads_or_alerts Page (Some PDFLib)
       (with_files [Some (entry "1" a_pdf); Some (entry "2" broken_pdf)]) _)))).
  simpl. lia.
Defined.

(** A merge of a.pdf and b.pdf on a page where pdf-lib did not load. *)
Lemma merge_without_library :
  effects (Script.mergePDFs (@None (PdfLibApi Page)))
    (with_files [Some (entry "1" a_pdf); Some (entry "2" b_pdf)]) =
  [ConsoleError "Merge failed:"
     "PDF-LIB library not loaded. Please check your internet connection.";
   Alert "An error occurred while merging PDFs: PDF-LIB library not loaded. Please check your internet connection."].
Proof.
  refine (proj1 (proj2
    (@mergePDFs_without_library Page
       (with_files [Some (entry "1" a_pdf); Some (entry "2" b_pdf)]) _))).
  simpl. lia.
Defined.

(** A merge of a.pdf and b.pdf with a pdf-lib that cannot save. *)
Lemma merge_that_cannot_save :
  successMessage_hidden
    (exec (Script.mergePDFs (Some Faulty.PDFLib))
       (with_files [Some (entry "1" a_pdf); Some (entry "2" b_pdf)])) = true.
Proof.
  refine (proj2 (proj2
    (@mergePDFs_save_fails Page Faulty.PDFLib
       (with_files [Some (entry "1" a_pdf); Some (entry "2" b_pdf)])
       [[Byte.x01; Byte.x02]; [Byte.x03; Byte.x04; Byte.x05]]
       "Out of memory" _ _ _))).
  - simpl. lia.
  - repeat constructor.
  - reflexivity.
Defined.

(** A batch of a.pdf, a text file, a PDF that does not decode and b.pdf:
    one alert, for the PDF that does not decode. *)
Lemma broken_pdf_alerted :
  filter is_alert
    (effects (handleFiles [a_pdf; notes_txt; broken_pdf; b_pdf]) page0) =
  [Alert "Failed to load broken.pdf. It might be corrupted."].
Proof.
  apply (@corrupt_pdfs_alerted_by_name Date_now Math_random_toString36
           getDocument formatSize [a_pdf; notes_txt; broken_pdf; b_pdf] page0).
  discriminate.
Defined.

(** a.pdf added on a page where no thumbnail can be rendered. *)
Lemma a_pdf_added_without_thumbnail :
  map (option_map thumbnail)
    (filesData
       (exec (Script.addFile Date_now Math_random_toString36
                Faulty.getDocument formatSize a_pdf) page0)) =
  [Some ""].
Proof.
  rewrite (proj1 (proj2
    (@thumbnail_failure_keeps_file Date_now Math_random_toString36
       Faulty.getDocument formatSize a_pdf page0 [Byte.x01; Byte.x02]
       (mkPdfJsDoc 2 (inl "Canvas is not available"))
       "Canvas is not available" eq_refl eq_refl eq_refl))).
  reflexivity.
Defined.

End MoreOnTheDemoPage.
